(** * Verification of [lms/djangoapps/experiments/utils.py]

    A shallow embedding of the experiment utilities of the LMS: the stable
    bucketing hash ([stable_bucketing_hash_group]) together with the MD5
    digest, UTF-8 encoder and regular-expression substitutions it relies on,
    and the program enrollment and price helpers
    ([is_enrolled_in_course_run], [is_enrolled_in_course],
    [get_unenrolled_courses], [is_enrolled_in_all_courses],
    [get_course_entitlement_price_and_sku], [get_program_price_and_skus]),
    the upgrade link ([check_and_get_upgrade_link_and_date]) and the two
    metadata contexts ([get_experiment_user_metadata_context],
    [get_experiment_dashboard_metadata_context]). *)

From Stdlib Require Import ZArith Lia Strings.Byte Ascii String List.
From stdpp Require Import base option list gmap sets strings pretty.

Local Open Scope Z_scope.

(** ** Bytes *)

Module Bytes.

Definition byte_val (b : byte) : Z := Z.of_N (Byte.to_N b).

Definition byte_of (z : Z) : byte :=
  default x00 (Byte.of_N (Z.to_N (z mod 256))).

End Bytes.
Import Bytes.

(** ** The MD5 message digest (RFC 1321), as computed by [hashlib.md5] *)

Module MD5.

Definition mask32 : Z := 0xffffffff.

Definition add32 (a b : Z) : Z := Z.land (a + b) mask32.

Definition not32 (a : Z) : Z := Z.lxor a mask32.

Definition rotl32 (x s : Z) : Z :=
  Z.land (Z.lor (Z.shiftl x s) (Z.shiftr x (32 - s))) mask32.

Definition F (b c d : Z) : Z := Z.lor (Z.land b c) (Z.land (not32 b) d).
Definition G (b c d : Z) : Z := Z.lor (Z.land b d) (Z.land c (not32 d)).
Definition H (b c d : Z) : Z := Z.lxor (Z.lxor b c) d.
Definition I (b c d : Z) : Z := Z.lxor c (Z.lor b (not32 d)).

(** [T[i] = floor (2^32 * abs (sin (i + 1)))]. *)
Definition T : list Z :=
  [ 0xd76aa478; 0xe8c7b756; 0x242070db; 0xc1bdceee;
    0xf57c0faf; 0x4787c62a; 0xa8304613; 0xfd469501;
    0x698098d8; 0x8b44f7af; 0xffff5bb1; 0x895cd7be;
    0x6b901122; 0xfd987193; 0xa679438e; 0x49b40821;
    0xf61e2562; 0xc040b340; 0x265e5a51; 0xe9b6c7aa;
    0xd62f105d; 0x02441453; 0xd8a1e681; 0xe7d3fbc8;
    0x21e1cde6; 0xc33707d6; 0xf4d50d87; 0x455a14ed;
    0xa9e3e905; 0xfcefa3f8; 0x676f02d9; 0x8d2a4c8a;
    0xfffa3942; 0x8771f681; 0x6d9d6122; 0xfde5380c;
    0xa4beea44; 0x4bdecfa9; 0xf6bb4b60; 0xbebfbc70;
    0x289b7ec6; 0xeaa127fa; 0xd4ef3085; 0x04881d05;
    0xd9d4d039; 0xe6db99e5; 0x1fa27cf8; 0xc4ac5665;
    0xf4292244; 0x432aff97; 0xab9423a7; 0xfc93a039;
    0x655b59c3; 0x8f0ccc92; 0xffeff47d; 0x85845dd1;
    0x6fa87e4f; 0xfe2ce6e0; 0xa3014314; 0x4e0811a1;
    0xf7537e82; 0xbd3af235; 0x2ad7d2bb; 0xeb86d391 ].

(** Per-round left-rotation amounts. *)
Definition S : list Z :=
  [ 7; 12; 17; 22; 7; 12; 17; 22; 7; 12; 17; 22; 7; 12; 17; 22;
    5; 9; 14; 20; 5; 9; 14; 20; 5; 9; 14; 20; 5; 9; 14; 20;
    4; 11; 16; 23; 4; 11; 16; 23; 4; 11; 16; 23; 4; 11; 16; 23;
    6; 10; 15; 21; 6; 10; 15; 21; 6; 10; 15; 21; 6; 10; 15; 21 ].

Record state := State { sa : Z; sb : Z; sc : Z; sd : Z }.

Definition init : state :=
  State 0x67452301 0xefcdab89 0x98badcfe 0x10325476.

(** One of the 64 operations on a block [M] of sixteen 32-bit words. *)
Definition step (M : list Z) (st : state) (i : nat) : state :=
  let '(State a b c d) := st in
  let '(f, g) :=
    if (i <? 16)%nat then (F b c d, i)
    else if (i <? 32)%nat then (G b c d, ((5 * i + 1) mod 16)%nat)
    else if (i <? 48)%nat then (H b c d, ((3 * i + 5) mod 16)%nat)
    else (I b c d, ((7 * i) mod 16)%nat) in
  let x := add32 (add32 (add32 a f) (nth i T 0)) (nth g M 0) in
  State d (add32 b (rotl32 x (nth i S 0))) b c.

Definition compress (st : state) (M : list Z) : state :=
  let '(State a b c d) := st in
  let '(State a' b' c' d') := fold_left (step M) (seq 0 64) st in
  State (add32 a a') (add32 b b') (add32 c c') (add32 d d').

(** Little-endian words. *)
Fixpoint words_le (bs : list byte) : list Z :=
  match bs with
  | b0 :: b1 :: b2 :: b3 :: rest =>
      (byte_val b0 + 256 * (byte_val b1 + 256 * (byte_val b2 + 256 * byte_val b3)))
        :: words_le rest
  | _ => []
  end.

Fixpoint bytes_le (n : nat) (x : Z) : list byte :=
  match n with
  | O => []
  | Datatypes.S n' => byte_of x :: bytes_le n' (x / 256)
  end.

(** Append the bit 1, zero bits up to 56 modulo 64 bytes, and the length
    of the message in bits as a 64-bit little-endian integer. *)
Definition pad (msg : list byte) : list byte :=
  let len := Z.of_nat (length msg) in
  msg ++ [x80] ++ repeat x00 (Z.to_nat ((55 - len) mod 64))
      ++ bytes_le 8 ((8 * len) mod 2 ^ 64).

Fixpoint blocks (n : nat) (ws : list Z) (st : state) : state :=
  match n with
  | O => st
  | Datatypes.S n' => blocks n' (skipn 16 ws) (compress st (firstn 16 ws))
  end.

Definition digest (msg : list byte) : list byte :=
  let ws := words_le (pad msg) in
  let '(State a b c d) := blocks (length ws / 16) ws init in
  bytes_le 4 a ++ bytes_le 4 b ++ bytes_le 4 c ++ bytes_le 4 d.

End MD5.

(** ** Hexadecimal rendering of a digest ([hexdigest]) *)

Module Hex.

Definition hex_digit (n : Z) : ascii :=
  if n <? 10 then ascii_of_N (Z.to_N (48 + n))
  else ascii_of_N (Z.to_N (87 + n)).

Definition hex_of_byte (b : byte) (k : string) : string :=
  String (hex_digit (byte_val b / 16))
    (String (hex_digit (byte_val b mod 16)) k).

Definition hexlify (bs : list byte) : string :=
  fold_right hex_of_byte EmptyString bs.

End Hex.

Definition bytes_of_string (s : string) : list byte :=
  map byte_of_ascii (list_ascii_of_string s).


(** ** The Python runtime the module runs in

    Exceptions, the mutable world (the [hashlib] objects alive on the heap,
    the records written to [logger], the wall clock read by [now()]) and the
    monad that threads both through a call. *)

Inductive exn : Set :=
| ZeroDivisionError
| ValueError
| InvalidKeyError
| InvalidOperation
| TypeError
| ReferenceError
| KeyError
| Overflow.

#[global] Instance exn_eq_dec : EqDecision exn.
Proof. solve_decision. Defined.

Inductive outcome (A : Type) : Type :=
| Return (a : A)
| Raise (e : exn).
Arguments Return {A} a.
Arguments Raise {A} e.

Record world := World {
  hashers : gmap nat (list byte);
  next_hasher : nat;
  log : list string;
  clock : Z
}.

Definition py (A : Type) : Type := world → outcome A * world.

#[global] Instance py_ret : MRet py := λ A a w, (Return a, w).

#[global] Instance py_bind : MBind py := λ A B f m w,
  match m w with
  | (Return a, w') => f a w'
  | (Raise e, w') => (Raise e, w')
  end.

Definition raise {A} (e : exn) : py A := λ w, (Raise e, w).

(** [try: body / except e: handler]. *)
Definition try_except {A} (body : py A) (e : exn) (handler : py A) : py A :=
  λ w, match body w with
       | (Raise e', w') => if decide (e' = e) then handler w' else (Raise e', w')
       | r => r
       end.

(** The value a call returns (or the exception it raises) from world [w]. *)
Definition result_of {A} (m : py A) (w : world) : outcome A := (m w).1.

Definition logger_warn (msg : string) : py () := λ w,
  (Return (), World (hashers w) (next_hasher w) (log w ++ [msg]) (clock w)).

Definition now : py Z := λ w, (Return (clock w), w).

(** An operation of a library that returns or raises and touches nothing. *)
Definition of_outcome {A} (o : outcome A) : py A := λ w, (o, w).

(** [d[key]] on a dictionary: [KeyError] when the key is absent. *)
Definition subscript {A} (field : option A) : py A :=
  match field with
  | Some a => mret a
  | None => raise KeyError
  end.

(** ** Text and [unicode.encode('utf-8')] *)

(** A text is its sequence of Unicode code points (below [0x110000] in
    Python; the encoder is written for every code point). *)
Definition text := list N.

Module UTF8.

Definition cont (x : Z) : byte := byte_of (Z.lor 0x80 (Z.land x 0x3f)).

Definition encode_code_point (cp : N) : list byte :=
  let c := Z.of_N cp in
  if c <? 0x80 then [byte_of c]
  else if c <? 0x800 then
    [byte_of (Z.lor 0xc0 (Z.shiftr c 6)); cont c]
  else if c <? 0x10000 then
    [byte_of (Z.lor 0xe0 (Z.shiftr c 12)); cont (Z.shiftr c 6); cont c]
  else
    [byte_of (Z.lor 0xf0 (Z.shiftr c 18)); cont (Z.shiftr c 12);
     cont (Z.shiftr c 6); cont c].

Definition encode (t : text) : list byte :=
  flat_map encode_code_point t.

End UTF8.

Definition text_of_string (s : string) : text :=
  map N_of_ascii (list_ascii_of_string s).

(** ** [hashlib.md5] objects *)

Module hashlib.

(** [hashlib.md5()]: a fresh hash object that has been fed nothing. *)
Definition md5 : py nat := λ w,
  let h := next_hasher w in
  (Return h, World (<[h := []]> (hashers w)) (Datatypes.S h) (log w) (clock w)).

(** [hasher.update(data)]: feeding [a] and then [b] is feeding [a + b].
    A handle always names a live object in Python; on one that does not the
    model raises [ReferenceError]. *)
Definition update (h : nat) (data : list byte) : py () := λ w,
  match hashers w !! h with
  | Some fed =>
      (Return (),
       World (<[h := fed ++ data]> (hashers w)) (next_hasher w) (log w) (clock w))
  | None => (Raise ReferenceError, w)
  end.

(** [hasher.hexdigest()]. *)
Definition hexdigest (h : nat) : py string := λ w,
  match hashers w !! h with
  | Some fed => (Return (Hex.hexlify (MD5.digest fed)), w)
  | None => (Raise ReferenceError, w)
  end.

End hashlib.

(** ** [re.sub] with a character class as its pattern *)

Module re.

(** A character class [[a-bc-d...]] is its list of ranges. *)
Definition char_class := list (ascii * ascii).

Definition in_range (c : ascii) (r : ascii * ascii) : bool :=
  ((N_of_ascii r.1 <=? N_of_ascii c) && (N_of_ascii c <=? N_of_ascii r.2))%N.

Definition matches (cls : char_class) (c : ascii) : bool :=
  existsb (in_range c) cls.

(** [re.sub(cls, repl, s)]: every character of [s] the class matches is
    replaced by [repl], the others are kept. *)
Fixpoint sub (cls : char_class) (repl : string) (s : string) : string :=
  match s with
  | EmptyString => EmptyString
  | String c rest =>
      if matches cls c then (repl ++ sub cls repl rest)%string
      else String c (sub cls repl rest)
  end.

(** [[0-7]] and [[8-9a-f]]. *)
Definition class_0_7 : char_class := [("0", "7")]%char.
Definition class_8_9a_f : char_class := [("8", "9"); ("a", "f")]%char.

End re.

(** ** [int(s, base)] and [%] *)

(** The value of a digit character, for bases up to 36. *)
Definition digit_value (c : ascii) : option Z :=
  let n := Z.of_N (N_of_ascii c) in
  if (48 <=? n) && (n <=? 57) then Some (n - 48)
  else if (97 <=? n) && (n <=? 122) then Some (n - 87)
  else if (65 <=? n) && (n <=? 90) then Some (n - 55)
  else None.

Fixpoint int_digits (base : Z) (acc : Z) (s : string) : option Z :=
  match s with
  | EmptyString => Some acc
  | String c rest =>
      match digit_value c with
      | Some d => if d <? base then int_digits base (base * acc + d) rest else None
      | None => None
      end
  end.

(** [int(s, base)] on a string of digits; anything else is a [ValueError]
    (signs, blanks and base prefixes do not occur in a transformed digest
    and are not modelled). *)
Definition py_int (s : string) (base : Z) : py Z :=
  match s with
  | EmptyString => raise ValueError
  | _ => match int_digits base 0 s with
         | Some n => mret n
         | None => raise ValueError
         end
  end.

(** [a % b] on integers: the remainder has the sign of [b]. *)
Definition py_mod (a b : Z) : py Z :=
  if decide (b = 0) then raise ZeroDivisionError else mret (a mod b).

(** ** [stable_bucketing_hash_group] *)

Definition stable_bucketing_hash_group
    (group_name : text) (group_count : Z) (username : text) : py Z :=
  hasher ← hashlib.md5;
  _ ← hashlib.update hasher (UTF8.encode group_name);
  _ ← hashlib.update hasher (UTF8.encode username);
  hash_str ← hashlib.hexdigest hasher;
  n ← py_int (re.sub re.class_8_9a_f "1" (re.sub re.class_0_7 "0" hash_str)) 2;
  py_mod n group_count.

Definition world0 : world := World ∅ 0 [] 0.

(** ** The bucket assignment as the specification words it

    Steps 1 to 6 of the algorithm of the StableBucketer, written from the
    text of the specification and independently of the embedding above. *)

Module Reference.

(** Steps 1 and 2: the MD5 digest of the UTF-8 bytes of the name followed
    immediately by the UTF-8 bytes of the username. *)
Definition digest_of (name username : text) : list byte :=
  MD5.digest (UTF8.encode name ++ UTF8.encode username).

(** Step 3: the digest as lowercase hexadecimal, two characters a byte. *)
Definition alphabet : list ascii :=
  list_ascii_of_string "0123456789abcdef".

Definition hex_char (n : Z) : ascii := nth (Z.to_nat n) alphabet "0"%char.

Definition render (d : list byte) : string :=
  string_of_list_ascii
    (flat_map (λ b, [hex_char (byte_val b / 16); hex_char (byte_val b mod 16)]) d).

(** Step 4: 0-7 becomes 0; 8-9 and a-f become 1. *)
Definition between (lo hi c : ascii) : bool :=
  ((N_of_ascii lo <=? N_of_ascii c) && (N_of_ascii c <=? N_of_ascii hi))%N.

Definition threshold (c : ascii) : ascii :=
  if between "0" "7" c then "0"%char
  else if between "8" "9" c || between "a" "f" c then "1"%char
  else c.

Fixpoint transform (s : string) : string :=
  match s with
  | EmptyString => EmptyString
  | String c rest => String (threshold c) (transform rest)
  end.

(** Step 5: the string of 0 and 1 read as a base-2 numeral. *)
Fixpoint binary_value (s : string) : Z :=
  match s with
  | EmptyString => 0
  | String c rest =>
      (if Ascii.eqb c "1" then 2 ^ Z.of_nat (String.length rest) else 0)
      + binary_value rest
  end.

(** Step 6. *)
Definition assign_bucket (name username : text) (bucket_count : Z) : Z :=
  binary_value (transform (render (digest_of name username))) mod bucket_count.

(** The digest as a 128-bit integer, first byte most significant. *)
Definition digest_value (d : list byte) : Z :=
  fold_left (λ acc b, 256 * acc + byte_val b) d 0.

(** Nibble [i] of the 32 nibbles of [D], nibble 0 the most significant. *)
Definition nibble (D : Z) (i : nat) : Z :=
  Z.land (Z.shiftr D (4 * (31 - Z.of_nat i))) 15.

Definition top_bit (n : Z) : bool := Z.testbit n 3.

(** The integer whose 32 bits are the top bits of the 32 nibbles of [D],
    most significant nibble first. *)
Definition top_bit_of_each_nibble (D : Z) : Z :=
  fold_left (λ acc i, 2 * acc + Z.b2z (top_bit (nibble D i))) (seq 0 32) 0.

End Reference.

(** ** Program enrollment and price helpers *)

(** [decimal.Decimal]: a finite number [coefficient * 10 ^ exponent] with
    its sign on the coefficient, an infinity or a NaN (quiet or signaling).
    The sign of a zero and the payload of a NaN are not kept: a negative zero
    is equal to zero and false like it, and the payload is never read. *)
Inductive decimal :=
| Decimal (coefficient exponent : Z)
| Infinity (negative : bool)
| NaN (signaling : bool).

(** The context of [decimal] when the module runs, [DefaultContext]: 28
    digits, [ROUND_HALF_EVEN], exponents within [Emin] and [Emax], and
    [InvalidOperation], [DivisionByZero] and [Overflow] trapped (raised);
    [Underflow], [Subnormal], [Inexact], [Rounded] and [Clamped] only set
    flags. *)
Module DefaultContext.

Definition prec : Z := 28.
Definition Emax : Z := 999999999.
Definition Emin : Z := -999999999.
Definition Etiny : Z := Emin - prec + 1.
Definition Etop : Z := Emax - prec + 1.

End DefaultContext.
Import DefaultContext.

(** [len(str(n))] for a positive [n]. *)
Fixpoint digits_loop (fuel : nat) (n : Z) : Z :=
  match fuel with
  | O => 1
  | Datatypes.S fuel' => if n <? 10 then 1 else 1 + digits_loop fuel' (n / 10)
  end.

Definition num_digits (n : Z) : Z := digits_loop (Z.to_nat (Z.log2 n)) n.

(** [ROUND_HALF_EVEN] on the quotient [q] and remainder [r] of a division
    by [p]: the quotient rounded. *)
Definition round_half_even (q r p : Z) : Z :=
  if (p <? 2 * r) || ((p =? 2 * r) && Z.odd q) then q + 1 else q.

(** [Decimal._fix]: a result rounded to the context. A zero has its
    exponent brought into range; a number beyond [Emax] raises [Overflow];
    a number with too many digits, or below [Etiny], is rounded to [prec]
    digits or to the exponent [Etiny], and may become zero. *)
Definition fix_context (d : decimal) : outcome decimal :=
  match d with
  | Decimal c e =>
      if c =? 0 then Return (Decimal 0 (Z.min (Z.max e Etiny) Emax))
      else
        let len := num_digits (Z.abs c) in
        let exp_min := len + e - prec in
        if Etop <? exp_min then Raise Overflow
        else
          let exp_min := Z.max exp_min Etiny in
          if e <? exp_min then
            let digits := len + e - exp_min in
            let m := if digits <? 0 then 1 else Z.abs c in
            let k := if digits <? 0 then 1 else exp_min - e in
            let q := m / 10 ^ k in
            let coeff := round_half_even q (m mod 10 ^ k) (10 ^ k) in
            let carry := (q <? coeff) && (prec <? num_digits coeff) in
            let coeff := if carry then coeff / 10 else coeff in
            let exp_min := if carry then exp_min + 1 else exp_min in
            if Etop <? exp_min then Raise Overflow
            else Return (Decimal (Z.sgn c * coeff) exp_min)
          else Return d
  | _ => Return d
  end.

(** [Decimal.__add__] on two finite numbers: the exact sum, written with
    the smaller exponent, then rounded to the context. With a zero operand
    the other one is padded by at most [prec + 1] zeros; with operands far
    apart the smaller one is replaced by a unit in a place that rounds alike
    ([_normalize]). *)
Definition add_finite (cx ex cy ey : Z) : outcome decimal :=
  let exp := Z.min ex ey in
  if (cx =? 0) && (cy =? 0) then fix_context (Decimal 0 exp)
  else if cx =? 0 then
    let exp := Z.max exp (ey - prec - 1) in
    fix_context (Decimal (cy * 10 ^ (ey - exp)) exp)
  else if cy =? 0 then
    let exp := Z.max exp (ex - prec - 1) in
    fix_context (Decimal (cx * 10 ^ (ex - exp)) exp)
  else
    let '(ct, et, co, eo) :=
      if ex <? ey then (cy, ey, cx, ex) else (cx, ex, cy, ey) in
    let tmp_len := num_digits (Z.abs ct) in
    let other_len := num_digits (Z.abs co) in
    let exp := et + Z.min (-1) (tmp_len - prec - 2) in
    let '(co, eo) :=
      if other_len + eo - 1 <? exp then (Z.sgn co, exp) else (co, eo) in
    fix_context (Decimal (ct * 10 ^ (et - eo) + co) eo).

(** [x + y]. A signaling NaN and the sum of opposite infinities raise
    [InvalidOperation]; a quiet NaN and an infinity are returned. *)
Definition decimal_add (x y : decimal) : outcome decimal :=
  match x, y with
  | NaN true, _ => Raise InvalidOperation
  | _, NaN true => Raise InvalidOperation
  | NaN false, _ => Return x
  | _, NaN false => Return y
  | Infinity sx, Infinity sy =>
      if Bool.eqb sx sy then Return x else Raise InvalidOperation
  | Infinity _, _ => Return x
  | _, Infinity _ => Return y
  | Decimal cx ex, Decimal cy ey => add_finite cx ex cy ey
  end.

(** [d <= 0]: an ordering of a NaN raises [InvalidOperation]. *)
Definition decimal_le_zero (d : decimal) : outcome bool :=
  match d with
  | Decimal c _ => Return (c <=? 0)
  | Infinity negative => Return negative
  | NaN _ => Raise InvalidOperation
  end.

(** [bool(d)]: a zero is false, everything else true. *)
Definition decimal_nonzero (d : decimal) : bool :=
  match d with
  | Decimal c _ => negb (c =? 0)
  | _ => true
  end.

(** A price as the catalog delivers it: [None], a string such as ["49.00"],
    or a number. *)
Inductive price_value :=
| PriceNone
| PriceStr (s : string)
| PriceDec (d : decimal).

(** Truth values of Python. *)
Definition truthy_str (o : option string) : bool :=
  match o with
  | Some s => negb (String.eqb s "")
  | None => false
  end.

Definition truthy_price (p : price_value) : bool :=
  match p with
  | PriceNone => false
  | PriceStr s => negb (String.eqb s "")
  | PriceDec d => decimal_nonzero d
  end.

(** The dictionaries of the catalog. Every field is a key that may be
    absent ([None]): the code reads ['mode'], ['expires'], ['type'],
    ['key'], ['entitlements'] and ['course_runs'] with [.get], and
    subscripts ['price'], ['sku'], ['status'] and ['seats'], which raises
    [KeyError] on an absent key. The value of a sku is a string or [None],
    hence the two options. *)
Record entitlement := Entitlement {
  ent_mode : option string;
  ent_price : option price_value;
  ent_sku : option (option string);
  ent_expires : option Z
}.

Record seat := Seat {
  seat_type : option string;
  seat_price : option price_value;
  seat_sku : option (option string)
}.

Record course_run := CourseRun {
  run_key : option string;
  run_status : option string;
  run_seats : option (list seat)
}.

Record course := Course {
  entitlements : option (list entitlement);
  course_runs : option (list course_run)
}.

Section Programs.

(** [opaque_keys], [decimal] and [course_modes] are libraries the module
    imports: course keys and their parser ([None] when it raises
    [InvalidKeyError]), the parser of [Decimal(str)] ([None] when it
    raises [InvalidOperation]; it applies no rounding and may give an
    infinity or a NaN) and [format_course_price]. *)
Context {CourseKey : Type} `{Countable CourseKey}.
Variable CourseKey_from_string : option string → option CourseKey.
Variable Decimal_of_string : string → option decimal.
Variable format_course_price : decimal → string.

Record enrollment := Enrollment { course_id : CourseKey }.

(** [Decimal(value)]. *)
Definition to_Decimal (p : price_value) : py decimal :=
  match p with
  | PriceNone => raise TypeError
  | PriceStr s =>
      match Decimal_of_string s with
      | Some d => mret d
      | None => raise InvalidOperation
      end
  | PriceDec d => mret d
  end.

(** [entitlement.get('mode') == 'verified' and entitlement['price'] and
    entitlement['sku']], as a truth value: [and] evaluates its right
    operand only when the left one is true. *)
Definition entitlement_test (e : entitlement) : py bool :=
  if bool_decide (ent_mode e = Some "verified"%string) then
    price ← subscript (ent_price e);
    if truthy_price price then
      sku ← subscript (ent_sku e);
      mret (truthy_str sku)
    else mret false
  else mret false.

(** The loop over [course.get('entitlements', [])]: [Some] when it
    returns from the function, [None] when it runs to its end. *)
Fixpoint entitlements_loop (es : list entitlement)
    : py (option (price_value * option string)) :=
  match es with
  | [] => mret None
  | e :: rest =>
      b ← entitlement_test e;
      if (b : bool) then
        valid ← match ent_expires e with
                | None => mret true
                | Some expires => t ← now; mret (t <? expires)
                end;
        if (valid : bool) then
          price ← subscript (ent_price e);
          sku ← subscript (ent_sku e);
          mret (Some (price, sku))
        else entitlements_loop rest
      else entitlements_loop rest
  end.

(** [[run for run in course_runs if run['status'] == 'published']]: the
    list is built before any seat is looked at. *)
Fixpoint published_runs (rs : list course_run) : py (list course_run) :=
  match rs with
  | [] => mret []
  | r :: rest =>
      status ← subscript (run_status r);
      tail ← published_runs rest;
      mret (if String.eqb status "published" then r :: tail else tail)
  end.

(** [seat.get('type') == 'verified' and seat['price'] and seat['sku']]. *)
Definition seat_test (s : seat) : py bool :=
  if bool_decide (seat_type s = Some "verified"%string) then
    price ← subscript (seat_price s);
    if truthy_price price then
      sku ← subscript (seat_sku s);
      mret (truthy_str sku)
    else mret false
  else mret false.

Fixpoint seats_loop (ss : list seat)
    : py (option (price_value * option string)) :=
  match ss with
  | [] => mret None
  | s :: rest =>
      b ← seat_test s;
      if (b : bool) then
        price ← to_Decimal (default PriceNone (seat_price s));
        mret (Some (PriceDec price, default None (seat_sku s)))
      else seats_loop rest
  end.

Fixpoint published_course_runs_loop (rs : list course_run)
    : py (option (price_value * option string)) :=
  match rs with
  | [] => mret None
  | r :: rest =>
      seats ← subscript (run_seats r);
      found ← seats_loop seats;
      match found with
      | Some x => mret (Some x)
      | None => published_course_runs_loop rest
      end
  end.

Definition get_course_entitlement_price_and_sku (c : course)
    : py (price_value * option string) :=
  found ← entitlements_loop (default [] (entitlements c));
  match found with
  | Some x => mret x
  | None =>
      let course_runs := default [] (course_runs c) in
      published_course_runs ← published_runs course_runs;
      found ← published_course_runs_loop published_course_runs;
      match found with
      | Some x => mret x
      | None => mret (PriceNone, None)
      end
  end.

(** The loop of [get_program_price_and_skus] over the courses, on the
    two variables it updates. *)
Fixpoint program_price_loop (courses : list course)
    (program_price : decimal) (skus : list string)
    : py (decimal * list string) :=
  match courses with
  | [] => mret (program_price, skus)
  | c :: rest =>
      '(course_price, course_sku) ← get_course_entitlement_price_and_sku c;
      match course_price, course_sku with
      | PriceNone, _ | _, None => program_price_loop rest program_price skus
      | _, Some sku =>
          a ← to_Decimal (PriceDec program_price);
          b ← to_Decimal course_price;
          total ← of_outcome (decimal_add a b);
          program_price_loop rest total (skus ++ [sku])
      end
  end.

Definition get_program_price_and_skus (courses : list course)
    : py (option string * option (list string)) :=
  '(program_price, skus) ← program_price_loop courses (Decimal 0 0) [];
  nothing ← of_outcome (decimal_le_zero program_price);
  if (nothing : bool) then mret (None, None)
  else mret (Some (format_course_price program_price), Some skus).

(** [u'{}'.format(key)]. *)
Definition format_key (key : option string) : string :=
  default "None"%string key.

Definition is_enrolled_in_course_run
    (cr : course_run) (enrollment_course_ids : gset CourseKey) : py bool :=
  let key := run_key cr in
  try_except
    (match CourseKey_from_string key with
     | Some course_run_key =>
         mret (bool_decide (course_run_key ∈ enrollment_course_ids))
     | None => raise InvalidKeyError
     end)
    InvalidKeyError
    (_ ← logger_warn
           ("Unable to determine if user was enrolled since the course key "
            ++ format_key key ++ " is invalid")%string;
     mret false).

Fixpoint course_runs_loop
    (rs : list course_run) (enrollment_course_ids : gset CourseKey) : py bool :=
  match rs with
  | [] => mret false
  | r :: rest =>
      b ← is_enrolled_in_course_run r enrollment_course_ids;
      if (b : bool) then mret true
      else course_runs_loop rest enrollment_course_ids
  end.

Definition is_enrolled_in_course
    (c : course) (enrollment_course_ids : gset CourseKey) : py bool :=
  match course_runs c with
  | Some (r :: rs) => course_runs_loop (r :: rs) enrollment_course_ids
  | _ => mret false
  end.

Definition enrollment_ids (user_enrollments : list enrollment) : gset CourseKey :=
  list_to_set (map course_id user_enrollments).

Fixpoint unenrolled_loop (courses : list course)
    (enrollment_course_ids : gset CourseKey) (unenrolled_courses : list course)
    : py (list course) :=
  match courses with
  | [] => mret unenrolled_courses
  | c :: rest =>
      b ← is_enrolled_in_course c enrollment_course_ids;
      if (b : bool) then unenrolled_loop rest enrollment_course_ids unenrolled_courses
      else unenrolled_loop rest enrollment_course_ids (unenrolled_courses ++ [c])
  end.

Definition get_unenrolled_courses
    (courses : list course) (user_enrollments : list enrollment) : py (list course) :=
  unenrolled_loop courses (enrollment_ids user_enrollments) [].

Fixpoint all_courses_loop (courses : list course)
    (enrollment_course_ids : gset CourseKey) : py bool :=
  match courses with
  | [] => mret true
  | c :: rest =>
      b ← is_enrolled_in_course c enrollment_course_ids;
      if (b : bool) then all_courses_loop rest enrollment_course_ids
      else mret false
  end.

Definition is_enrolled_in_all_courses
    (courses : list course) (user_enrollments : list enrollment) : py bool :=
  all_courses_loop courses (enrollment_ids user_enrollments).

End Programs.
(** ** Auxiliary definitions of the proofs *)

(** The digit of a nibble after the two substitutions. *)
Definition bit_char (n : Z) : ascii := if n <? 8 then "0"%char else "1"%char.

Definition bits_of_byte (b : byte) (k : string) : string :=
  String (bit_char (byte_val b / 16)) (String (bit_char (byte_val b mod 16)) k).

Definition bits_string (d : list byte) : string :=
  fold_right bits_of_byte EmptyString d.

Fixpoint binary_string (s : string) : Prop :=
  match s with
  | EmptyString => True
  | String c rest => (c = "0"%char ∨ c = "1"%char) ∧ binary_string rest
  end.

(** What [int(s, 2) % n] comes to, outside the monad. *)
Definition int2_mod (s : string) (n : Z) : outcome Z :=
  match s with
  | EmptyString => Raise ValueError
  | _ => match int_digits 2 0 s with
         | Some x => if decide (n = 0) then Raise ZeroDivisionError
                     else Return (x mod n)
         | None => Raise ValueError
         end
  end.

Definition transformed (hash_str : string) : string :=
  re.sub re.class_8_9a_f "1" (re.sub re.class_0_7 "0" hash_str).

(** The top bits of the nibbles of a byte string, by Horner's rule. *)
Definition top_bits_step (acc : Z) (b : byte) : Z :=
  2 * (2 * acc + Z.b2z (Reference.top_bit (byte_val b / 16)))
  + Z.b2z (Reference.top_bit (byte_val b mod 16)).

Definition top_bits_horner (d : list byte) (acc : Z) : Z :=
  fold_left top_bits_step d acc.

(** [Reference.top_bit_of_each_nibble] for an integer of [m] nibbles. *)
Definition top_bits_of (m : nat) (D : Z) : Z :=
  fold_left
    (λ acc i, 2 * acc
              + Z.b2z (Reference.top_bit
                         (Z.land (Z.shiftr D (4 * (Z.of_nat m - 1 - Z.of_nat i))) 15)))
    (seq 0 m) 0.

Section ProgramsAux.

Context {CourseKey : Type} `{Countable CourseKey}.
Variable CourseKey_from_string : option string → option CourseKey.
Variable Decimal_of_string : string → option decimal.

(** Enrollment in a course run and in a course, outside the monad. *)
Definition run_enrolled (ids : gset CourseKey) (cr : course_run) : bool :=
  match CourseKey_from_string (run_key cr) with
  | Some k => bool_decide (k ∈ ids)
  | None => false
  end.

Definition course_enrolled (ids : gset CourseKey) (c : course) : bool :=
  existsb (run_enrolled ids) (default [] (course_runs c)).

(** A finite decimal that is not negative, that is positive, and one that
    is still positive once rounded to the context: at least half a unit in
    the last place [Etiny] of the context, the half excluded. *)
Definition decimal_nonneg (d : decimal) : Prop :=
  match d with
  | Decimal c _ => 0 <= c
  | _ => False
  end.




(** A price that is [None] or a number with property [Q], and a course
    whose entitlement and seat prices are such. *)
Definition price_is (Q : decimal → Prop) (p : price_value) : Prop :=
  match p with
  | PriceNone => True
  | PriceStr s => ∃ d, Decimal_of_string s = Some d ∧ Q d
  | PriceDec d => Q d
  end.


(** A price that is a non-negative number. *)
Definition price_nonneg (p : price_value) : Prop := price_is decimal_nonneg p.






End ProgramsAux.
(** ** Sample data: a catalog, course keys and prices *)

Module Sample.

(** Course keys of the form [course-v1:...]. *)
Definition CourseKey_from_string (key : option string) : option string :=
  match key with
  | Some s => if String.prefix "course-v1:" s then Some s else None
  | None => None
  end.

Definition Decimal_of_string (s : string) : option decimal :=
  if String.eqb s "49.00" then Some (Decimal 4900 (-2))
  else if String.eqb s "149.00" then Some (Decimal 14900 (-2))
  else if String.eqb s "0.00" then Some (Decimal 0 (-2))
  else if String.eqb s "1E-1000000027" then Some (Decimal 1 (-1000000027))
  else if String.eqb s "1E+1000000000" then Some (Decimal 1 1000000000)
  else None.

(** The currency symbol and the whole units of the price. *)
Definition format_course_price (d : decimal) : string :=
  match d with
  | Decimal c e =>
      let units := if e <? 0 then c / 10 ^ (- e) else c * 10 ^ e in
      ("$" ++ pretty units)%string
  | Infinity negative => if negative then "$-Infinity"%string else "$Infinity"%string
  | NaN _ => "$NaN"%string
  end.

Definition demo_run : course_run :=
  CourseRun (Some "course-v1:edX+DemoX+Demo_Course") (Some "published")
    (Some [Seat (Some "audit") (Some (PriceStr "0.00")) (Some None);
           Seat (Some "verified") (Some (PriceStr "149.00")) (Some (Some "8CF08E5"))]).

Definition broken_run : course_run :=
  CourseRun (Some "edX/DemoX") (Some "unpublished") (Some []).

Definition demo_course : course := Course None (Some [broken_run; demo_run]).

Definition entitled_course : course :=
  Course (Some [Entitlement (Some "verified") (Some (PriceStr "49.00")) (Some (Some "A5B6DBE")) None])
         (Some []).

Definition free_course : course :=
  Course (Some [Entitlement (Some "verified") (Some (PriceStr "0.00")) (Some (Some "FREE000")) None])
         None.

Definition enrolled : list (@enrollment string) :=
  [Enrollment "course-v1:edX+DemoX+Demo_Course"].

End Sample.
(** ** Enrollment and prices, stated on the catalog *)

Section CatalogFacts.

Context {CourseKey : Type} `{Countable CourseKey}.
Variable CourseKey_from_string : option string → option CourseKey.

(** Some course run of [c] has a key that parses to the course id of one
    of the enrollments. *)
Definition has_enrolled_run
    (user_enrollments : list (@enrollment CourseKey)) (c : course) : Prop :=
  ∃ cr k e,
    cr ∈ default [] (course_runs c)
    ∧ CourseKey_from_string (run_key cr) = Some k
    ∧ e ∈ user_enrollments ∧ course_id e = k.

(** Every key of every course run of the courses parses. *)
Definition keys_valid (courses : list course) : Prop :=
  ∀ c cr, c ∈ courses → cr ∈ default [] (course_runs c) →
          is_Some (CourseKey_from_string (run_key cr)).

End CatalogFacts.

(** The test of a priced item outside the monad: the truth value of
    [item['price'] and item['sku']], [KeyError] when a key it reads is
    absent. *)
Definition priced_with_sku (price : option price_value) (sku : option (option string))
    : outcome bool :=
  match price with
  | None => Raise KeyError
  | Some p =>
      if truthy_price p then
        match sku with
        | None => Raise KeyError
        | Some k => Return (truthy_str k)
        end
      else Return false
  end.

(** The test of the entitlement loop at time [t], and that of the seat
    loop: [Return true] for an item that ends the search, [Return false]
    for one that is passed over, [Raise KeyError] for one that ends the
    call. *)
Definition entitlement_qualifies (t : Z) (e : entitlement) : outcome bool :=
  if bool_decide (ent_mode e = Some "verified"%string) then
    match priced_with_sku (ent_price e) (ent_sku e) with
    | Return true =>
        Return match ent_expires e with
               | None => true
               | Some expires => t <? expires
               end
    | o => o
    end
  else Return false.

Definition seat_qualifies (s : seat) : outcome bool :=
  if bool_decide (seat_type s = Some "verified"%string) then
    priced_with_sku (seat_price s) (seat_sku s)
  else Return false.

(** The first item of a list that ends a search. *)
Fixpoint first_qualifying {A} (test : A → outcome bool) (l : list A)
    : outcome (option A) :=
  match l with
  | [] => Return None
  | x :: rest =>
      match test x with
      | Return true => Return (Some x)
      | Return false => first_qualifying test rest
      | Raise e => Raise e
      end
  end.

(** The course runs of a course that are published. *)
Definition published (r : course_run) : bool :=
  bool_decide (run_status r = Some "published"%string).

(** The first seat of a list of course runs that ends the search;
    [KeyError] at a course run without the key ['seats']. *)
Fixpoint first_seat (rs : list course_run) : outcome (option seat) :=
  match rs with
  | [] => Return None
  | r :: rest =>
      match run_seats r with
      | None => Raise KeyError
      | Some ss =>
          match first_qualifying seat_qualifies ss with
          | Return None => first_seat rest
          | o => o
          end
      end
  end.

(** The seats of a course run, and those of all course runs of a course. *)
Definition seats_of (r : course_run) : list seat := default [] (run_seats r).

(** The skus the catalog lists for a course. *)
Definition catalog_skus (c : course) : list (option string) :=
  omap ent_sku (default [] (entitlements c))
  ++ omap seat_sku (flat_map seats_of (default [] (course_runs c))).

(** What the seat loop does with the first seat that passes its test. *)
Definition seat_result (Decimal_of_string : string → option decimal) (s : seat)
    : py (option (price_value * option string)) :=
  price ← to_Decimal Decimal_of_string (default PriceNone (seat_price s));
  mret (Some (PriceDec price, default None (seat_sku s))).


(** The exceptions of the price code. *)
Definition price_exception (e : exn) : Prop :=
  e = KeyError ∨ e = InvalidOperation ∨ e = Overflow.

(** ** Exceptions beyond the built-in ones

    The functions below also meet [AttributeError] (an attribute read on
    [None]) and the exceptions of the ORM; [pyx] is [py] with these added. *)

Inductive exception : Set :=
| Builtin (e : exn)
| AttributeError
| DoesNotExist
| MultipleObjectsReturned.

#[global] Instance exception_eq_dec : EqDecision exception.
Proof. solve_decision. Defined.

Inductive xoutcome (A : Type) : Type :=
| XReturn (a : A)
| XRaise (e : exception).
Arguments XReturn {A} a.
Arguments XRaise {A} e.

Definition pyx (A : Type) : Type := world → xoutcome A * world.

#[global] Instance pyx_ret : MRet pyx := λ A a w, (XReturn a, w).

#[global] Instance pyx_bind : MBind pyx := λ A B f m w,
  match m w with
  | (XReturn a, w') => f a w'
  | (XRaise e, w') => (XRaise e, w')
  end.

Definition xraise {A} (e : exception) : pyx A := λ w, (XRaise e, w).

(** A call of one of the functions above. *)
Definition lift {A} (m : py A) : pyx A := λ w,
  match m w with
  | (Return a, w') => (XReturn a, w')
  | (Raise e, w') => (XRaise (Builtin e), w')
  end.

Definition xtry_except {A} (body : pyx A) (e : exception) (handler : pyx A) : pyx A :=
  λ w, match body w with
       | (XRaise e', w') => if decide (e' = e) then handler w' else (XRaise e', w')
       | r => r
       end.

Definition xresult_of {A} (m : pyx A) (w : world) : xoutcome A := (m w).1.

(** [obj.attr]: an [AttributeError] when [obj] is [None]. *)
Definition getattr {A B} (obj : option A) (attr : A → B) : pyx B :=
  match obj with
  | Some a => mret (attr a)
  | None => xraise AttributeError
  end.

(** ** Users, courses and the rows of [CourseEnrollment] *)

(** [user.id] is [None] for the anonymous user. *)
Record user := User {
  user_id : option Z;
  is_authenticated : bool
}.

Section Upgrade.

Context {CourseKey : Type} `{Countable CourseKey}.

(** A course (descriptor or overview): [course.id], [course.self_paced],
    [course.start], [course.end]. *)
Record course_descriptor := CourseDescriptor {
  cd_id : CourseKey;
  self_paced : bool;
  cd_start : option Z;
  cd_end : option Z
}.

(** A row of [CourseEnrollment] with the attributes the module reads;
    [enr_pk] is its primary key, [enr_course] the related course. *)
Record course_enrollment := CourseEnrollment {
  enr_pk : Z;
  enr_user_id : Z;
  enr_course_id : CourseKey;
  enr_course : course_descriptor;
  enr_mode : string;
  enr_is_active : bool;
  enr_created : Z;
  enr_upgrade_deadline : option Z
}.

(** [CourseEnrollment.get_enrollment], [verified_upgrade_link_is_valid] and
    [verified_upgrade_deadline_link] are imported by the module. *)
Variable CourseEnrollment_get_enrollment : user → CourseKey → option course_enrollment.
Variable verified_upgrade_link_is_valid : option course_enrollment → bool.
Variable verified_upgrade_deadline_link : user → option course_descriptor → string.

Definition check_and_get_upgrade_link_and_date
    (u : user) (enrollment : option course_enrollment) (course : option course_descriptor)
    : pyx (option string * option Z) :=
  _ ← match enrollment, course with
      | None, None => xraise (Builtin ValueError)
      | _, _ => mret ()
      end;
  course ← match enrollment with
           | Some e =>
               course ← match course with
                        | None => mret (Some (enr_course e))
                        | Some c =>
                            if decide (enr_course_id e ≠ cd_id c)
                            then xraise (Builtin ValueError)
                            else mret course
                        end;
               if decide (Some (enr_user_id e) ≠ user_id u)
               then xraise (Builtin ValueError)
               else mret course
           | None => mret course
           end;
  enrollment ← match enrollment with
               | None =>
                   course_id ← getattr course cd_id;
                   mret (CourseEnrollment_get_enrollment u course_id)
               | Some _ => mret enrollment
               end;
  if is_authenticated u && verified_upgrade_link_is_valid enrollment then
    let link := verified_upgrade_deadline_link u course in
    upgrade_deadline ← getattr enrollment enr_upgrade_deadline;
    mret (Some link, upgrade_deadline)
  else mret (None, None).

End Upgrade.

(** ** [get_experiment_dashboard_metadata_context] *)

Section Dashboard.

Context {CourseKey : Type} `{Countable CourseKey}.

(** [str(enrollment.course)] and the property [enrollment.course_price]. *)
Variable course_str : @course_descriptor CourseKey → string.
Variable course_price : @course_enrollment CourseKey → string.

(** The dictionary comprehension: the enrollments are entered in order, a
    later one replacing an earlier one under the same key. *)
Definition get_experiment_dashboard_metadata_context
    (enrollments : list course_enrollment) : gmap string string :=
  fold_left (λ d e, <[course_str (enr_course e) := course_price e]> d) enrollments ∅.

End Dashboard.

(** ** [get_experiment_user_metadata_context] *)

(** A program of the catalog, read with [.get]. *)
Record program := Program {
  program_uuid : option string;
  program_title : option string;
  program_marketing_url : option string;
  program_courses : option (list course)
}.

(** The dictionary stored under ['program_key_fields']. *)
Record program_key_fields := ProgramKeyFields {
  pk_uuid : option string;
  pk_title : option string;
  pk_marketing_url : option string;
  pk_total_courses : option nat;
  pk_complete_enrollment : bool;
  pk_has_courses_left_to_purchase : bool;
  pk_courses_left_to_purchase_price : option string;
  pk_courses_left_to_purchase_url : option string
}.

Section UserMetadata.

Context {CourseKey : Type} `{Countable CourseKey}.

(** The dictionary the function returns. *)
Record user_metadata := UserMetadata {
  upgrade_link : option string;
  upgrade_price : string;
  enrollment_mode : option string;
  enrollment_time : option Z;
  pacing_type : string;
  upgrade_deadline : option Z;
  course_key : CourseKey;
  course_start : option Z;
  course_end : option Z;
  has_staff_access : bool;
  forum_roles : list string;
  partition_groups : gmap string string;
  has_non_audit_enrollments : option bool;
  program_key : option program_key_fields
}.

(** The collaborators the module imports: the parsers and the formatter
    of the helpers above, the table behind [CourseEnrollment.objects], the
    two waffle flags, the catalog, the checkout service, the access check,
    the forum roles, the user partitions and the display price. *)
Variable CourseKey_from_string : option string → option CourseKey.
Variable Decimal_of_string : string → option decimal.
Variable format_course_price : decimal → string.
Variable CourseEnrollment_objects : list (@course_enrollment CourseKey).
Variable CourseEnrollment_get_enrollment : user → CourseKey → option (@course_enrollment CourseKey).
Variable verified_upgrade_link_is_valid : option (@course_enrollment CourseKey) → bool.
Variable verified_upgrade_deadline_link : user → option (@course_descriptor CourseKey) → string.
Variable PROGRAM_INFO_FLAG_is_enabled : bool.
Variable PROGRAM_PRICE_FLAG_is_enabled : bool.
Variable get_programs : CourseKey → list program.
Variable get_checkout_page_url : list string → option string → string.
Variable has_staff_access_to_preview_mode : user → CourseKey → bool.
Variable forum_role_names : user → CourseKey → list string.
Variable partitions : Type.
Variable get_all_partitions_for_course : @course_descriptor CourseKey → partitions.
Variable get_user_partition_groups : CourseKey → partitions → user → gmap string string.
Variable get_cosmetic_verified_display_price : @course_descriptor CourseKey → string.

(** The helpers read [enrollment.course_id] only. *)
Definition as_enrollment (e : @course_enrollment CourseKey) : @enrollment CourseKey :=
  Enrollment (enr_course_id e).

(** [CourseEnrollment.objects...filter(user_id=user.id)] and
    [user_enrollments.filter(mode='audit')]. *)
Definition filter_user (u : user) : list (@course_enrollment CourseKey) :=
  filter (λ e, Some (enr_user_id e) = user_id u) CourseEnrollment_objects.

Definition filter_audit (user_enrollments : list (@course_enrollment CourseKey)) : list (@course_enrollment CourseKey) :=
  filter (λ e, enr_mode e = "audit"%string) user_enrollments.

(** [enrollment not in audit_enrollments]: rows are compared by primary key. *)
Definition not_in (e : (@course_enrollment CourseKey)) (rows : list (@course_enrollment CourseKey)) : bool :=
  negb (existsb (λ r, enr_pk r =? enr_pk e) rows).

(** [CourseEnrollment.objects...get(user_id=user.id, course_id=course.id)]. *)
Definition objects_get (u : user) (course_id : CourseKey) : pyx (@course_enrollment CourseKey) :=
  match filter (λ e, Some (enr_user_id e) = user_id u ∧ enr_course_id e = course_id)
               CourseEnrollment_objects with
  | [] => xraise DoesNotExist
  | [e] => mret e
  | _ => xraise MultipleObjectsReturned
  end.

(** The call of [get_checkout_page_url] with the skus unpacked as its
    positional arguments and [program_uuid] as keyword: unpacking [None] is
    a [TypeError]. *)
Definition call_get_checkout_page_url
    (skus : option (list string)) (uuid : option string) : pyx string :=
  match skus with
  | Some skus => mret (get_checkout_page_url skus uuid)
  | None => xraise (Builtin TypeError)
  end.

(** The statements of the [try] block before [.get]: the program of the
    course. They raise no [DoesNotExist]. Besides ['program_key_fields'] the
    block leaves the local variable [enrollment], which in Python 2 the list
    comprehension over [user_enrollments] binds to the last of them. *)
Definition program_block
    (course : (@course_descriptor CourseKey))
    (user_enrollments audit_enrollments : list (@course_enrollment CourseKey))
    : pyx (option program_key_fields * option (@course_enrollment CourseKey)) :=
  if PROGRAM_INFO_FLAG_is_enabled then
    match get_programs (cd_id course) with
    | [] => mret (None, None)
    | program :: _ =>
        let courses := program_courses program in
        let uuid := program_uuid program in
        '(total_courses, complete_enrollment, has_courses_left_to_purchase,
          courses_left_to_purchase_price, courses_left_to_purchase_url, enrollment) ←
          match courses with
          | None => mret (None, false, false, None, None, None)
          | Some courses =>
              complete_enrollment ←
                lift (is_enrolled_in_all_courses CourseKey_from_string courses
                        (map as_enrollment user_enrollments));
              if PROGRAM_PRICE_FLAG_is_enabled then
                let non_audit_enrollments :=
                  List.filter (λ e, not_in e audit_enrollments) user_enrollments in
                let enrollment := last user_enrollments in
                courses_left_to_purchase ←
                  lift (get_unenrolled_courses CourseKey_from_string courses
                          (map as_enrollment non_audit_enrollments));
                let has_courses_left_to_purchase :=
                  match courses_left_to_purchase with [] => false | _ => true end in
                '(price, skus) ←
                  lift (get_program_price_and_skus Decimal_of_string format_course_price
                          courses_left_to_purchase);
                url ← call_get_checkout_page_url skus uuid;
                mret (Some (length courses), complete_enrollment,
                      has_courses_left_to_purchase, price, Some url, enrollment)
              else
                mret (Some (length courses), complete_enrollment, false, None, None, None)
          end;
        mret (Some (ProgramKeyFields uuid (program_title program)
                      (program_marketing_url program) total_courses complete_enrollment
                      has_courses_left_to_purchase courses_left_to_purchase_price
                      courses_left_to_purchase_url),
              enrollment)
    end
  else mret (None, None).

(** The [try] statement is cut in two: [program_block], then [.get] and
    what follows it under the handler of [DoesNotExist], which finds the
    locals as [program_block] left them. [user.is_authenticated] is read
    once as an attribute and once called; both give the same truth value. *)
Definition get_experiment_user_metadata_context
    (course : (@course_descriptor CourseKey)) (u : user) : pyx user_metadata :=
  let user_enrollments := filter_user u in
  let audit_enrollments := filter_audit user_enrollments in
  let has_non_audit_enrollments :=
    bool_decide (length audit_enrollments ≠ length user_enrollments) in
  '(program_key, enrollment) ← program_block course user_enrollments audit_enrollments;
  '(enrollment, enrollment_mode, enrollment_time) ←
    xtry_except
      (enrollment ← objects_get u (cd_id course);
       if enr_is_active enrollment
       then mret (Some enrollment, Some (enr_mode enrollment), Some (enr_created enrollment))
       else mret (Some enrollment, None, None))
      DoesNotExist
      (mret (enrollment, None, None));
  '(upgrade_link, upgrade_date) ←
    check_and_get_upgrade_link_and_date CourseEnrollment_get_enrollment
      verified_upgrade_link_is_valid verified_upgrade_deadline_link
      u enrollment (Some course);
  let has_staff_access := has_staff_access_to_preview_mode u (cd_id course) in
  let forum_roles :=
    if is_authenticated u then forum_role_names u (cd_id course) else [] in
  let user_partitions :=
    if is_authenticated u
    then get_user_partition_groups (cd_id course)
           (get_all_partitions_for_course course) u
    else ∅ in
  mret (UserMetadata upgrade_link (get_cosmetic_verified_display_price course)
          enrollment_mode enrollment_time
          (if self_paced course then "self_paced" else "instructor_paced")
          upgrade_date (cd_id course) (cd_start course) (cd_end course)
          has_staff_access forum_roles user_partitions
          (Some has_non_audit_enrollments) program_key).

End UserMetadata.

Section UserMetadataAux.

Context {CourseKey : Type} `{Countable CourseKey}.
Variable CourseEnrollment_objects : list (@course_enrollment CourseKey).

(** The rows of the user in the course, as [.get] selects them. *)
Definition rows_of (u : user) (course_id : CourseKey) : list (@course_enrollment CourseKey) :=
  filter (λ e, Some (enr_user_id e) = user_id u ∧ enr_course_id e = course_id)
         CourseEnrollment_objects.

(** The enrollments of the user that are not among the audit ones. *)
Definition non_audit_enrollments (u : user) : list (@course_enrollment CourseKey) :=
  List.filter
    (λ e, not_in e (filter_audit (filter_user CourseEnrollment_objects u)))
    (filter_user CourseEnrollment_objects u).

End UserMetadataAux.
(** ** Sample data: a site with its enrollments and collaborators *)

Module SampleSite.

Definition demo_key : string := "course-v1:edX+DemoX+Demo_Course".
Definition other_key : string := "course-v1:edX+Other+2019".

Definition demo_descriptor : @course_descriptor string :=
  CourseDescriptor demo_key true (Some 1546300800) None.

Definition other_descriptor : @course_descriptor string :=
  CourseDescriptor other_key false (Some 1546300800) (Some 1577836800).

Definition learner : user := User (Some 7) true.
Definition visitor : user := User None false.

(** The learner audits the demo course. *)
Definition audit_row : @course_enrollment string :=
  CourseEnrollment 1 7 demo_key demo_descriptor "audit" true 1550000000 (Some 1560000000).

(** The learner has purchased the demo course. *)
Definition verified_row : @course_enrollment string :=
  CourseEnrollment 2 7 demo_key demo_descriptor "verified" true 1550000000 None.

(** The learner is enrolled in another course. *)
Definition other_row : @course_enrollment string :=
  CourseEnrollment 3 7 other_key other_descriptor "verified" true 1551000000 None.

(** Somebody else, inactive in the demo course. *)
Definition stranger_row : @course_enrollment string :=
  CourseEnrollment 4 8 demo_key demo_descriptor "audit" false 1552000000 None.

Definition get_enrollment (table : list (@course_enrollment string))
    (u : user) (course_id : string) : option (@course_enrollment string) :=
  List.find
    (λ e, bool_decide (Some (enr_user_id e) = user_id u ∧ enr_course_id e = course_id))
    table.

(** An enrollment can be upgraded while it is an audit one. *)
Definition link_is_valid (enrollment : option (@course_enrollment string)) : bool :=
  match enrollment with
  | Some e => bool_decide (enr_mode e = "audit"%string)
  | None => false
  end.

Definition deadline_link (u : user) (course : option (@course_descriptor string)) : string :=
  match course with
  | Some c => ("/verify_student/upgrade/" ++ cd_id c ++ "/")%string
  | None => "/verify_student/upgrade/"
  end.

Definition programs (course_id : string) : list program :=
  if String.eqb course_id demo_key
  then [Program (Some "3c2e4a1f") (Some "Demo program") None (Some [Sample.demo_course])]
  else [].

Definition checkout_page_url (skus : list string) (uuid : option string) : string :=
  ("/basket/add/?sku=" ++ String.concat "&sku=" skus
   ++ "&bundle=" ++ default "" uuid)%string.

Definition partition_groups_of (course_id : string) (ps : ()) (u : user)
    : gmap string string :=
  {[ "Enrollment Track Groups"%string := "Audit"%string ]}.

(** The call on a table of enrollments, with the two flags. *)
Definition context (table : list (@course_enrollment string)) (info price : bool)
    : @course_descriptor string → user → pyx (@user_metadata string) :=
  get_experiment_user_metadata_context Sample.CourseKey_from_string
    Sample.Decimal_of_string Sample.format_course_price table (get_enrollment table)
    link_is_valid deadline_link info price programs checkout_page_url
    (λ _ _, false) (λ _ _, ["Student"%string]) () (λ _, ()) partition_groups_of
    (λ _, "$149"%string).

Definition upgrade (table : list (@course_enrollment string)) :=
  check_and_get_upgrade_link_and_date (get_enrollment table) link_is_valid deadline_link.

End SampleSite.

(** Further sample courses, entitlements and the contexts expected. *)

Module SampleCases.

Definition clean_course : course := Course None (Some [Sample.demo_run]).

Definition expired_entitlement : entitlement :=
  Entitlement (Some "verified") (Some (PriceStr "149.00")) (Some (Some "OLD0000")) (Some (-5)).

Definition valid_entitlement : entitlement :=
  Entitlement (Some "verified") (Some (PriceStr "49.00")) (Some (Some "A5B6DBE"))
    (Some 1560000000).


Definition unpriced_course : course := Course None None.




(** A course run without the key ['status'], behind an unexpired
    entitlement and alone. *)
Definition unlabelled_run : course_run :=
  CourseRun (Some "course-v1:edX+DemoX+Old") None (Some []).

Definition unlabelled_course : course := Course None (Some [unlabelled_run]).

(** What the learner who audits the demo course gets with the flags off. *)
Definition audit_context : @user_metadata string :=
  UserMetadata (Some "/verify_student/upgrade/course-v1:edX+DemoX+Demo_Course/")
    "$149" (Some "audit") (Some 1550000000) "self_paced" (Some 1560000000)
    SampleSite.demo_key (Some 1546300800) None false ["Student"%string]
    {[ "Enrollment Track Groups"%string := "Audit"%string ]}
    (Some false) None.

(** What a visitor gets with the flags off. *)
Definition visitor_context : @user_metadata string :=
  UserMetadata None "$149" None None "self_paced" None
    SampleSite.demo_key (Some 1546300800) None false [] ∅ (Some false) None.

End SampleCases.

(** * Theorems *)

(** ** Bytes and the digest *)

Lemma byte_val_range b : 0 <= byte_val b < 256.
Proof.
  unfold byte_val. pose proof (Byte.to_N_bounded b). lia.
Qed.

Lemma byte_of_val b : byte_of (byte_val b) = b.
Proof.
  unfold byte_of. pose proof (byte_val_range b) as Hr.
  rewrite Z.mod_small by exact Hr.
  unfold byte_val. rewrite N2Z.id, Byte.of_to_N. reflexivity.
Qed.

Lemma byte_val_of z : byte_val (byte_of z) = z mod 256.
Proof.
  unfold byte_of, byte_val.
  assert (Hm : 0 <= z mod 256 < 256) by (apply Z.mod_pos_bound; lia).
  destruct (Byte.of_N (Z.to_N (z mod 256))) as [b|] eqn:E.
  - apply Byte.to_of_N in E. simpl. rewrite E. lia.
  - apply Byte.of_N_None_iff in E. lia.
Qed.

Example md5_empty :
  Hex.hexlify (MD5.digest []) = "d41d8cd98f00b204e9800998ecf8427e"%string.
Proof. vm_compute. reflexivity. Qed.

Example md5_abc :
  Hex.hexlify (MD5.digest (bytes_of_string "abc"))
  = "900150983cd24fb0d6963f7d28e17f72"%string.
Proof. vm_compute. reflexivity. Qed.

Example md5_two_blocks :
  Hex.hexlify (MD5.digest (repeat "a"%byte 56))
  = "3b0c8ac703f828b04c6c197006d17218"%string.
Proof. vm_compute. reflexivity. Qed.

Example md5_three_blocks :
  Hex.hexlify (MD5.digest (repeat "a"%byte 130))
  = "e016e4ccc7fdaea56fc377600b58c4cb"%string.
Proof. vm_compute. reflexivity. Qed.

Lemma bytes_le_length n x : length (MD5.bytes_le n x) = n.
Proof. revert x. induction n as [|n IH]; intros x; simpl; [done | by rewrite IH]. Qed.

Lemma digest_length msg : length (MD5.digest msg) = 16%nat.
Proof.
  unfold MD5.digest.
  destruct (MD5.blocks _ _ _) as [a b c d].
  rewrite !length_app, !bytes_le_length. reflexivity.
Qed.

(** ** The hasher on the heap *)

Lemma stable_bucketing_hash_group_run g n u w :
  result_of (stable_bucketing_hash_group g n u) w
  = int2_mod (transformed (Hex.hexlify (MD5.digest (UTF8.encode g ++ UTF8.encode u)))) n.
Proof.
  unfold stable_bucketing_hash_group, result_of, mbind, py_bind.
  unfold hashlib.md5, hashlib.update, hashlib.hexdigest. simpl.
  rewrite lookup_insert_eq. simpl.
  rewrite lookup_insert_eq. simpl.
  rewrite lookup_insert_eq. simpl.
  fold (transformed (Hex.hexlify (MD5.digest (UTF8.encode g ++ UTF8.encode u)))).
  unfold int2_mod, py_int, py_mod.
  destruct (transformed _) as [|c s]; [reflexivity|].
  destruct (int_digits 2 0 (String c s)) as [x|]; [|reflexivity].
  unfold mret, py_ret. destruct (decide (n = 0)); reflexivity.
Qed.

(** ** The two substitutions on a hexadecimal string *)

Lemma nibble_cases n :
  0 <= n < 16 →
  n = 0 ∨ n = 1 ∨ n = 2 ∨ n = 3 ∨ n = 4 ∨ n = 5 ∨ n = 6 ∨ n = 7 ∨
  n = 8 ∨ n = 9 ∨ n = 10 ∨ n = 11 ∨ n = 12 ∨ n = 13 ∨ n = 14 ∨ n = 15.
Proof. lia. Qed.

Ltac each_nibble n Hn :=
  let C := fresh "C" in
  pose proof (nibble_cases n Hn) as C;
  repeat (destruct C as [-> | C]); [..| subst n].

Lemma byte_high_nibble b : 0 <= byte_val b / 16 < 16.
Proof. pose proof (byte_val_range b). split; [apply Z.div_pos | apply Z.div_lt_upper_bound]; lia. Qed.

Lemma byte_low_nibble b : 0 <= byte_val b mod 16 < 16.
Proof. apply Z.mod_pos_bound. lia. Qed.

Lemma transformed_cons n k :
  0 <= n < 16 →
  transformed (String (Hex.hex_digit n) k) = String (bit_char n) (transformed k).
Proof. intros Hn. each_nibble n Hn; reflexivity. Qed.

Lemma transformed_hexlify d : transformed (Hex.hexlify d) = bits_string d.
Proof.
  induction d as [|b d IH]; [reflexivity|].
  simpl. unfold Hex.hex_of_byte, bits_of_byte.
  rewrite !transformed_cons by auto using byte_high_nibble, byte_low_nibble.
  by rewrite IH.
Qed.

Lemma hex_char_digit n : 0 <= n < 16 → Reference.hex_char n = Hex.hex_digit n.
Proof. intros Hn. each_nibble n Hn; reflexivity. Qed.

Lemma threshold_hex_char n :
  0 <= n < 16 → Reference.threshold (Reference.hex_char n) = bit_char n.
Proof. intros Hn. each_nibble n Hn; reflexivity. Qed.

Lemma render_hexlify d : Reference.render d = Hex.hexlify d.
Proof.
  unfold Reference.render.
  induction d as [|b d IH]; [reflexivity|].
  simpl. unfold Hex.hex_of_byte.
  rewrite !hex_char_digit by auto using byte_high_nibble, byte_low_nibble.
  by rewrite IH.
Qed.

Lemma transform_render d : Reference.transform (Reference.render d) = bits_string d.
Proof.
  unfold Reference.render.
  induction d as [|b d IH]; [reflexivity|].
  simpl. unfold bits_of_byte.
  rewrite !threshold_hex_char by auto using byte_high_nibble, byte_low_nibble.
  by rewrite IH.
Qed.

(** ** Reading a string of binary digits *)

Lemma bit_char_binary n : bit_char n = "0"%char ∨ bit_char n = "1"%char.
Proof. unfold bit_char. destruct (n <? 8); auto. Qed.

Lemma bits_string_binary d : binary_string (bits_string d).
Proof.
  induction d as [|b d IH]; simpl; [done|].
  auto using bit_char_binary.
Qed.

Lemma bits_string_length d :
  String.length (bits_string d) = (2 * length d)%nat.
Proof. induction d as [|b d IH]; simpl; [done | rewrite IH; lia]. Qed.

Lemma int_digits_binary s :
  binary_string s →
  ∀ acc, int_digits 2 acc s
         = Some (acc * 2 ^ Z.of_nat (String.length s) + Reference.binary_value s).
Proof.
  induction s as [|c s IH]; intros Hs acc.
  - simpl. f_equal. lia.
  - destruct Hs as [Hc Hs]. specialize (IH Hs).
    cbn [int_digits Reference.binary_value String.length].
    rewrite Nat2Z.inj_succ, Z.pow_succ_r by lia.
    destruct Hc as [-> | ->].
    + change (digit_value "0") with (Some 0). cbn iota beta.
      change (0 <? 2) with true. cbn iota. rewrite IH. f_equal.
      change (Ascii.eqb "0" "1") with false. cbn iota. lia.
    + change (digit_value "1") with (Some 1). cbn iota beta.
      change (1 <? 2) with true. cbn iota. rewrite IH. f_equal.
      change (Ascii.eqb "1" "1") with true. cbn iota. lia.
Qed.

Lemma binary_value_bounds s :
  0 <= Reference.binary_value s < 2 ^ Z.of_nat (String.length s).
Proof.
  induction s as [|c s IH]; [simpl; lia|].
  cbn [Reference.binary_value String.length].
  rewrite Nat2Z.inj_succ, Z.pow_succ_r by lia.
  destruct (Ascii.eqb c "1"); lia.
Qed.

Lemma int2_mod_bits d n :
  d ≠ [] →
  int2_mod (bits_string d) n
  = if decide (n = 0) then Raise ZeroDivisionError
    else Return (Reference.binary_value (bits_string d) mod n).
Proof.
  intros Hd. unfold int2_mod.
  rewrite (int_digits_binary _ (bits_string_binary d)).
  destruct d as [|b d]; [done|]. simpl.
  rewrite Z.add_0_l. reflexivity.
Qed.

Lemma digest_nonempty msg : MD5.digest msg ≠ [].
Proof.
  intros E. pose proof (digest_length msg) as L. rewrite E in L. discriminate.
Qed.

(** The outcome of a call, computed outside the monad. *)
Lemma stable_bucketing_hash_group_outcome g n u w :
  result_of (stable_bucketing_hash_group g n u) w
  = if decide (n = 0) then Raise ZeroDivisionError
    else Return (Reference.assign_bucket g u n).
Proof.
  rewrite stable_bucketing_hash_group_run, transformed_hexlify.
  rewrite int2_mod_bits by apply digest_nonempty.
  unfold Reference.assign_bucket, Reference.digest_of.
  by rewrite transform_render.
Qed.

(** ** Thresholding at 8 is the top bit of the nibble *)

Lemma digit_value_bit_char n :
  0 <= n < 16 → digit_value (bit_char n) = Some (Z.b2z (Reference.top_bit n)).
Proof. intros Hn. each_nibble n Hn; reflexivity. Qed.

Lemma b2z_lt_2 b : (Z.b2z b <? 2) = true.
Proof. by destruct b. Qed.

Lemma int_digits_bits_string d acc :
  int_digits 2 acc (bits_string d) = Some (top_bits_horner d acc).
Proof.
  revert acc. induction d as [|b d IH]; intros acc; [reflexivity|].
  cbn [bits_string fold_right bits_of_byte int_digits].
  rewrite !digit_value_bit_char by auto using byte_high_nibble, byte_low_nibble.
  rewrite !b2z_lt_2. fold (bits_string d). rewrite IH. reflexivity.
Qed.

Lemma binary_value_horner d :
  Reference.binary_value (bits_string d) = top_bits_horner d 0.
Proof.
  pose proof (int_digits_bits_string d 0) as E.
  rewrite (int_digits_binary _ (bits_string_binary d)) in E.
  injection E as E. lia.
Qed.

Lemma digest_value_snoc d b :
  Reference.digest_value (d ++ [b]) = 256 * Reference.digest_value d + byte_val b.
Proof. unfold Reference.digest_value. by rewrite fold_left_app. Qed.

Lemma top_bits_horner_snoc d b :
  top_bits_horner (d ++ [b]) 0 = top_bits_step (top_bits_horner d 0) b.
Proof. unfold top_bits_horner. by rewrite fold_left_app. Qed.

Lemma shiftr_byte_high D v s :
  0 <= v < 256 → 0 <= s → Z.shiftr (256 * D + v) (8 + s) = Z.shiftr D s.
Proof.
  intros Hv Hs. rewrite <- Z.shiftr_shiftr by lia. f_equal.
  rewrite Z.shiftr_div_pow2 by lia. change (2 ^ 8) with 256.
  rewrite Z.mul_comm, Z.div_add_l by lia. rewrite Z.div_small by lia. lia.
Qed.

Lemma nibble_high D v :
  0 <= v < 256 → Z.land (Z.shiftr (256 * D + v) 4) 15 = v / 16.
Proof.
  intros Hv. rewrite Z.shiftr_div_pow2 by lia. change (2 ^ 4) with 16.
  change 15 with (Z.ones 4). rewrite Z.land_ones by lia. change (2 ^ 4) with 16.
  replace (256 * D + v) with (v + (16 * D) * 16) by lia.
  rewrite Z.div_add by lia.
  replace (v / 16 + 16 * D) with (v / 16 + D * 16) by lia.
  rewrite Z_mod_plus_full.
  apply Z.mod_small. split; [apply Z.div_pos | apply Z.div_lt_upper_bound]; lia.
Qed.

Lemma nibble_low D v :
  Z.land (Z.shiftr (256 * D + v) 0) 15 = v mod 16.
Proof.
  rewrite Z.shiftr_0_r. change 15 with (Z.ones 4).
  rewrite Z.land_ones by lia. change (2 ^ 4) with 16.
  replace (256 * D + v) with (v + (16 * D) * 16) by lia.
  apply Z_mod_plus_full.
Qed.

Lemma fold_left_ext_in {A B} (f g : A → B → A) l a :
  (∀ x y, In y l → f x y = g x y) → fold_left f l a = fold_left g l a.
Proof.
  revert a. induction l as [|y l IH]; intros a Hfg; [reflexivity|].
  simpl. rewrite Hfg by (left; reflexivity).
  apply IH. intros x z Hz. apply Hfg. right. exact Hz.
Qed.

Lemma top_bits_of_snoc (d : list byte) b :
  top_bits_of (2 * length (d ++ [b])) (Reference.digest_value (d ++ [b]))
  = top_bits_step (top_bits_of (2 * length d) (Reference.digest_value d)) b.
Proof.
  rewrite digest_value_snoc, length_app. simpl length.
  replace (2 * (length d + 1))%nat with (Datatypes.S (Datatypes.S (2 * length d))) by lia.
  set (m := (2 * length d)%nat). set (D := Reference.digest_value d).
  pose proof (byte_val_range b) as Hv.
  unfold top_bits_of.
  rewrite !seq_S, !fold_left_app. cbn [fold_left].
  unfold top_bits_step. f_equal; [f_equal; f_equal; [f_equal|] |].
  - apply fold_left_ext_in. intros x i Hi. apply in_seq in Hi.
    do 4 f_equal.
    replace (4 * (Z.of_nat (Datatypes.S (Datatypes.S m)) - 1 - Z.of_nat i))
      with (8 + 4 * (Z.of_nat m - 1 - Z.of_nat i)) by lia.
    apply shiftr_byte_high; lia.
  - do 2 f_equal.
    replace (4 * (Z.of_nat (Datatypes.S (Datatypes.S m)) - 1 - Z.of_nat (0 + m)))
      with 4 by lia.
    apply nibble_high; lia.
  - do 2 f_equal.
    replace (4 * (Z.of_nat (Datatypes.S (Datatypes.S m)) - 1 - Z.of_nat (0 + Datatypes.S m)))
      with 0 by lia.
    apply nibble_low.
Qed.

Lemma top_bits_of_horner d :
  top_bits_of (2 * length d) (Reference.digest_value d) = top_bits_horner d 0.
Proof.
  induction d as [|b d IH] using rev_ind; [reflexivity|].
  by rewrite top_bits_of_snoc, top_bits_horner_snoc, IH.
Qed.

Lemma top_bit_of_each_nibble_32 D :
  Reference.top_bit_of_each_nibble D = top_bits_of 32 D.
Proof.
  unfold Reference.top_bit_of_each_nibble, top_bits_of, Reference.nibble.
  apply fold_left_ext_in. intros x i _.
  repeat f_equal.
Qed.

(** ** The stable bucketing hash *)

Example utf8_sample :
  Hex.hexlify (UTF8.encode [0xe9; 0x20ac; 0x1f600; 0x41]%N) = "c3a9e282acf09f988041"%string.
Proof. vm_compute. reflexivity. Qed.

Example bucket_empty_empty_2 :
  result_of (stable_bucketing_hash_group [] 2 []) world0 = Return 1.
Proof. vm_compute. reflexivity. Qed.

Example bucket_exp1_alice_10 :
  result_of (stable_bucketing_hash_group
               (text_of_string "exp1") 10 (text_of_string "alice")) world0
  = Return 9.
Proof. vm_compute. reflexivity. Qed.

Example bucket_exp1_alice_0 :
  result_of (stable_bucketing_hash_group
               (text_of_string "exp1") 0 (text_of_string "alice")) world0
  = Raise ZeroDivisionError.
Proof. vm_compute. reflexivity. Qed.

(** The value of a call with a bucket count of at least 1. *)
Lemma stable_bucketing_hash_group_value
    (group_name username : text) (bucket_count : Z) (w : world) :
  1 <= bucket_count →
  result_of (stable_bucketing_hash_group group_name bucket_count username) w
  = Return (Reference.assign_bucket group_name username bucket_count).
Proof.
  intros Hn. rewrite stable_bucketing_hash_group_outcome.
  destruct (decide (bucket_count = 0)); [lia | reflexivity].
Qed.

(** C1. For every group name, username and bucket count of at least 1,
    [stable_bucketing_hash_group] returns the reference computation of the
    specification: the MD5 digest of the UTF-8 bytes of the name followed by
    those of the username, rendered in lowercase hexadecimal, with 0-7
    replaced by 0 and 8-9, a-f by 1, read in base 2, modulo the count. *)
Theorem stable_bucketing_hash_group_reference
    (group_name username : text) (bucket_count : Z) (w : world) :
  1 <= bucket_count →
  result_of (stable_bucketing_hash_group group_name bucket_count username) w
  = Return (Reference.assign_bucket group_name username bucket_count).
Proof.
  intros Hn. rewrite stable_bucketing_hash_group_outcome.
  destruct (decide (bucket_count = 0)); [lia | reflexivity].
Qed.

Lemma stable_bucketing_hash_group_reference_witness :
  1 <= 10 ∧
  result_of (stable_bucketing_hash_group
               (text_of_string "exp1") 10 (text_of_string "alice")) world0
  = Return (Reference.assign_bucket (text_of_string "exp1") (text_of_string "alice") 10).
Proof.
  split; [lia | apply stable_bucketing_hash_group_reference; lia].
Defined.

(** C2. Two calls with the same arguments return the same integer, whatever
    the worlds they run in: the result depends on no call time, call order
    or hidden state. *)
Theorem stable_bucketing_hash_group_deterministic
    (group_name username : text) (bucket_count : Z) (w1 w2 : world) :
  1 <= bucket_count →
  ∃ r : Z,
    result_of (stable_bucketing_hash_group group_name bucket_count username) w1
    = Return r ∧
    result_of (stable_bucketing_hash_group group_name bucket_count username) w2
    = Return r.
Proof.
  intros Hn. exists (Reference.assign_bucket group_name username bucket_count).
  split; rewrite stable_bucketing_hash_group_outcome;
    destruct (decide (bucket_count = 0)); done || lia.
Qed.

Lemma stable_bucketing_hash_group_deterministic_witness :
  1 <= 10 ∧
  ∃ r : Z,
    result_of (stable_bucketing_hash_group
                 (text_of_string "exp1") 10 (text_of_string "alice")) world0
    = Return r ∧
    result_of (stable_bucketing_hash_group
                 (text_of_string "exp1") 10 (text_of_string "alice"))
      (World {[ 0%nat := [x61; x62] ]} 1 ["earlier call"%string] 1551052800)
    = Return r.
Proof.
  split; [lia | apply stable_bucketing_hash_group_deterministic; lia].
Defined.

(** C3. For a bucket count of at least 1 the bucket returned lies in
    [0, bucket_count). *)
Theorem stable_bucketing_hash_group_range
    (group_name username : text) (bucket_count : Z) (w : world) :
  1 <= bucket_count →
  ∃ r : Z,
    result_of (stable_bucketing_hash_group group_name bucket_count username) w
    = Return r ∧ 0 <= r < bucket_count.
Proof.
  intros Hn. exists (Reference.assign_bucket group_name username bucket_count).
  split; [by apply stable_bucketing_hash_group_value|].
  unfold Reference.assign_bucket. apply Z.mod_pos_bound. lia.
Qed.

Lemma stable_bucketing_hash_group_range_witness :
  1 <= 10 ∧
  ∃ r : Z,
    result_of (stable_bucketing_hash_group
                 (text_of_string "exp1") 10 (text_of_string "alice")) world0
    = Return r ∧ 0 <= r < 10.
Proof.
  split; [lia | apply stable_bucketing_hash_group_range; lia].
Defined.

(** C4. For every 128-bit digest, reading the transformed lowercase
    hexadecimal rendering (0-7 to 0, 8-9 and a-f to 1) in base 2 gives
    exactly the 32-bit integer made of the most significant bit of each of
    the 32 nibbles of the digest, most significant nibble first. *)
Theorem threshold_is_top_bit_of_each_nibble (digest : list byte) (w : world) :
  length digest = 16%nat →
  result_of
    (py_int (re.sub re.class_8_9a_f "1" (re.sub re.class_0_7 "0" (Hex.hexlify digest))) 2)
    w
  = Return (Reference.top_bit_of_each_nibble (Reference.digest_value digest))
  ∧ 0 <= Reference.top_bit_of_each_nibble (Reference.digest_value digest) < 2 ^ 32.
Proof.
  intros Hlen.
  fold (transformed (Hex.hexlify digest)). rewrite transformed_hexlify.
  rewrite top_bit_of_each_nibble_32.
  change 32%nat with (2 * 16)%nat. rewrite <- Hlen, top_bits_of_horner.
  rewrite <- binary_value_horner. split.
  - unfold result_of, py_int.
    rewrite (int_digits_binary _ (bits_string_binary digest)), Z.mul_0_l, Z.add_0_l.
    destruct digest as [|b d]; [discriminate | reflexivity].
  - pose proof (binary_value_bounds (bits_string digest)) as Hb.
    rewrite bits_string_length, Hlen in Hb. exact Hb.
Qed.

Lemma threshold_is_top_bit_of_each_nibble_witness :
  length (MD5.digest []) = 16%nat ∧
  result_of
    (py_int (re.sub re.class_8_9a_f "1"
               (re.sub re.class_0_7 "0" (Hex.hexlify (MD5.digest [])))) 2)
    world0
  = Return (Reference.top_bit_of_each_nibble (Reference.digest_value (MD5.digest []))).
Proof.
  split; [vm_compute; reflexivity|].
  apply (threshold_is_top_bit_of_each_nibble (MD5.digest []) world0).
  vm_compute. reflexivity.
Defined.




(** C6. With a single bucket every name and username is assigned bucket 0. *)
Theorem stable_bucketing_hash_group_single_bucket
    (group_name username : text) (w : world) :
  result_of (stable_bucketing_hash_group group_name 1 username) w = Return 0.
Proof.
  rewrite stable_bucketing_hash_group_value by lia.
  unfold Reference.assign_bucket. by rewrite Z.mod_1_r.
Qed.

(** C8. The bucket depends only on the concatenation of the UTF-8 encodings
    of the name and of the username: two pairs with the same concatenation
    are assigned the same bucket, for every bucket count of at least 1. *)
Theorem stable_bucketing_hash_group_concatenation
    (g1 u1 g2 u2 : text) (bucket_count : Z) (w1 w2 : world) :
  UTF8.encode g1 ++ UTF8.encode u1 = UTF8.encode g2 ++ UTF8.encode u2 →
  1 <= bucket_count →
  ∃ r : Z,
    result_of (stable_bucketing_hash_group g1 bucket_count u1) w1 = Return r ∧
    result_of (stable_bucketing_hash_group g2 bucket_count u2) w2 = Return r.
Proof.
  intros Hcat Hn. exists (Reference.assign_bucket g1 u1 bucket_count).
  rewrite !stable_bucketing_hash_group_value by done.
  split; [reflexivity|].
  unfold Reference.assign_bucket, Reference.digest_of. by rewrite Hcat.
Qed.

Lemma stable_bucketing_hash_group_concatenation_witness :
  UTF8.encode (text_of_string "ab") ++ UTF8.encode (text_of_string "c")
  = UTF8.encode (text_of_string "a") ++ UTF8.encode (text_of_string "bc")
  ∧ 1 <= 3 ∧
  ∃ r : Z,
    result_of (stable_bucketing_hash_group
                 (text_of_string "ab") 3 (text_of_string "c")) world0 = Return r ∧
    result_of (stable_bucketing_hash_group
                 (text_of_string "a") 3 (text_of_string "bc")) world0 = Return r.
Proof.
  split; [reflexivity|]. split; [lia|].
  apply stable_bucketing_hash_group_concatenation; [reflexivity | lia].
Defined.

(** ** Enrollment in the courses of a program *)

Section Enrollment.

Context {CourseKey : Type} `{Countable CourseKey}.
Variable CourseKey_from_string : option string → option CourseKey.

Lemma is_enrolled_in_course_run_value cr (ids : gset CourseKey) w :
  ∃ w', is_enrolled_in_course_run CourseKey_from_string cr ids w = (Return (run_enrolled CourseKey_from_string ids cr), w').
Proof.
  unfold is_enrolled_in_course_run, run_enrolled, try_except.
  destruct (CourseKey_from_string (run_key cr)) as [k|]; simpl; eauto.
Qed.

Lemma course_runs_loop_value rs (ids : gset CourseKey) w :
  ∃ w', course_runs_loop CourseKey_from_string rs ids w
        = (Return (existsb (run_enrolled CourseKey_from_string ids) rs), w').
Proof.
  revert w. induction rs as [|r rs IH]; intros w; [by eexists|].
  destruct (is_enrolled_in_course_run_value r ids w) as [w1 E].
  cbn [course_runs_loop existsb]. unfold mbind, py_bind. rewrite E.
  destruct (run_enrolled CourseKey_from_string ids r); [by eexists | apply IH].
Qed.

Lemma is_enrolled_in_course_value c (ids : gset CourseKey) w :
  ∃ w', is_enrolled_in_course CourseKey_from_string c ids w = (Return (course_enrolled CourseKey_from_string ids c), w').
Proof.
  unfold is_enrolled_in_course, course_enrolled.
  destruct (course_runs c) as [[|r rs]|]; [by eexists | | by eexists].
  apply course_runs_loop_value.
Qed.

Lemma all_courses_loop_value courses (ids : gset CourseKey) w :
  ∃ w', all_courses_loop CourseKey_from_string courses ids w
        = (Return (forallb (course_enrolled CourseKey_from_string ids) courses), w').
Proof.
  revert w. induction courses as [|c cs IH]; intros w; [by eexists|].
  destruct (is_enrolled_in_course_value c ids w) as [w1 E].
  cbn [all_courses_loop forallb]. unfold mbind, py_bind. rewrite E.
  destruct (course_enrolled CourseKey_from_string ids c); [apply IH | by eexists].
Qed.

Lemma unenrolled_loop_value courses (ids : gset CourseKey) acc w :
  ∃ w', unenrolled_loop CourseKey_from_string courses ids acc w
        = (Return (acc ++ List.filter (λ c, negb (course_enrolled CourseKey_from_string ids c)) courses), w').
Proof.
  revert acc w. induction courses as [|c cs IH]; intros acc w.
  - simpl. rewrite app_nil_r. by eexists.
  - destruct (is_enrolled_in_course_value c ids w) as [w1 E].
    cbn [unenrolled_loop List.filter]. unfold mbind, py_bind. rewrite E.
    destruct (course_enrolled CourseKey_from_string ids c); cbn [negb].
    + apply IH.
    + destruct (IH (acc ++ [c]) w1) as [w2 E2]. exists w2.
      rewrite E2, <- app_assoc. reflexivity.
Qed.

Lemma forallb_filter_negb {A} (f : A → bool) l :
  forallb f l = true ↔ List.filter (λ x, negb (f x)) l = [].
Proof.
  induction l as [|x l IH]; [done|].
  simpl. destruct (f x); simpl; [exact IH|]. split; discriminate.
Qed.

(** C7. When the key of a course run does not parse as a course key
    ([CourseKey.from_string] raises [InvalidKeyError]),
    [is_enrolled_in_course_run] returns [False] for every set of enrollment
    course ids; the error does not propagate. *)
Theorem is_enrolled_in_course_run_invalid_key
    (cr : course_run) (enrollment_course_ids : gset CourseKey) (w : world) :
  CourseKey_from_string (run_key cr) = None →
  result_of (is_enrolled_in_course_run CourseKey_from_string cr enrollment_course_ids) w = Return false.
Proof.
  intros Hkey.
  unfold result_of, is_enrolled_in_course_run, try_except.
  rewrite Hkey. reflexivity.
Qed.

(** C9. [is_enrolled_in_all_courses] returns [True] exactly when
    [get_unenrolled_courses] returns the empty list. *)
Theorem is_enrolled_in_all_courses_iff_none_unenrolled
    (courses : list course) (user_enrollments : list (@enrollment CourseKey))
    (w : world) :
  result_of (is_enrolled_in_all_courses CourseKey_from_string courses user_enrollments) w
  = Return true
  ↔ result_of (get_unenrolled_courses CourseKey_from_string courses user_enrollments) w
    = Return [].
Proof.
  unfold result_of, is_enrolled_in_all_courses, get_unenrolled_courses.
  destruct (all_courses_loop_value courses (enrollment_ids user_enrollments) w)
    as [w1 ->].
  destruct (unenrolled_loop_value courses (enrollment_ids user_enrollments) [] w)
    as [w2 ->].
  cbn [fst app]. split; intros E; injection E as E; f_equal.
  - by apply forallb_filter_negb.
  - by apply forallb_filter_negb.
Qed.

End Enrollment.

(** ** Arithmetic of [decimal] in the context *)


Lemma pow10_pos k : 0 < 10 ^ k ∨ k < 0.
Proof. destruct (Z_lt_le_dec k 0); [by right | left; by apply Z.pow_pos_nonneg]. Qed.











Lemma fix_context_raises d e : fix_context d = Raise e → e = Overflow.
Proof.
  unfold fix_context. destruct d as [c x| |]; [|done..]. cbv zeta.
  repeat case_match; congruence.
Qed.

Lemma add_finite_raises cx ex cy ey e :
  add_finite cx ex cy ey = Raise e → e = Overflow.
Proof.
  unfold add_finite. cbv zeta. repeat case_match; apply fix_context_raises.
Qed.

Lemma decimal_add_raises x y e :
  decimal_add x y = Raise e → e = InvalidOperation ∨ e = Overflow.
Proof.
  unfold decimal_add.
  destruct x as [cx ex|sx|[]], y as [cy ey|sy|[]]; try (intros [=]; auto; fail).
  - intros E. right. by apply add_finite_raises in E.
  - destruct (Bool.eqb sx sy); intros [=]; auto.
Qed.

Lemma decimal_le_zero_raises d e : decimal_le_zero d = Raise e → e = InvalidOperation.
Proof. destruct d; intros [=]; auto. Qed.

(** *** Sums that stay in the range of the context *)








(** ** The search of the catalog for the price and sku of a course *)

Section PriceSearch.

Variable Decimal_of_string : string → option decimal.

Lemma subscript_run {A} (field : option A) w :
  subscript field w = (match field with Some a => Return a | None => Raise KeyError end, w).
Proof. by destruct field. Qed.

Lemma entitlement_test_run e w :
  entitlement_test e w
  = (if bool_decide (ent_mode e = Some "verified"%string)
     then priced_with_sku (ent_price e) (ent_sku e) else Return false, w).
Proof.
  unfold entitlement_test, priced_with_sku, mbind, py_bind.
  destruct (bool_decide _); [|done]. rewrite subscript_run.
  destruct (ent_price e) as [p|]; [|done]. destruct (truthy_price p); [|done].
  rewrite subscript_run. by destruct (ent_sku e).
Qed.

Lemma seat_test_run s w : seat_test s w = (seat_qualifies s, w).
Proof.
  unfold seat_test, seat_qualifies, priced_with_sku, mbind, py_bind.
  destruct (bool_decide _); [|done]. rewrite subscript_run.
  destruct (seat_price s) as [p|]; [|done]. destruct (truthy_price p); [|done].
  rewrite subscript_run. by destruct (seat_sku s).
Qed.

(** An item that passes the test has a true price and a sku. *)
Lemma priced_with_sku_true price sku :
  priced_with_sku price sku = Return true →
  ∃ p k, price = Some p ∧ sku = Some (Some k)
         ∧ truthy_price p = true ∧ k ≠ ""%string.
Proof.
  unfold priced_with_sku. destruct price as [p|]; [|done].
  destruct (truthy_price p) eqn:Hp; [|done].
  destruct sku as [[k|]|]; [|done..]. cbn. intros [= Hk].
  exists p, k. split; [done|]. split; [done|]. split; [done|].
  intros ->. discriminate.
Qed.

Lemma entitlement_qualifies_true t e :
  entitlement_qualifies t e = Return true →
  ∃ p k, ent_price e = Some p ∧ ent_sku e = Some (Some k)
         ∧ truthy_price p = true ∧ k ≠ ""%string.
Proof.
  unfold entitlement_qualifies. destruct (bool_decide _); [|done].
  destruct (priced_with_sku _ _) as [[]|] eqn:E; [|done..].
  intros _. by apply priced_with_sku_true.
Qed.

Lemma seat_qualifies_true s :
  seat_qualifies s = Return true →
  ∃ p k, seat_price s = Some p ∧ seat_sku s = Some (Some k)
         ∧ truthy_price p = true ∧ k ≠ ""%string.
Proof.
  unfold seat_qualifies. destruct (bool_decide _); [|done]. apply priced_with_sku_true.
Qed.

Lemma entitlements_loop_find es w :
  entitlements_loop es w
  = (match first_qualifying (entitlement_qualifies (clock w)) es with
     | Return (Some e) =>
         Return (Some (default PriceNone (ent_price e), default None (ent_sku e)))
     | Return None => Return None
     | Raise ex => Raise ex
     end, w).
Proof.
  induction es as [|e es IH]; [reflexivity|].
  cbn [entitlements_loop first_qualifying]. unfold mbind at 1, py_bind at 1.
  rewrite entitlement_test_run.
  destruct (entitlement_qualifies (clock w) e) as [[]|ex] eqn:Eq.
  - destruct (entitlement_qualifies_true _ _ Eq) as (p & k & Hp & Hk & _).
    revert Eq. unfold entitlement_qualifies.
    destruct (bool_decide _); [|done].
    destruct (priced_with_sku _ _) as [[]|]; [|done..].
    unfold mbind, py_bind.
    destruct (ent_expires e) as [expires|]; cbn [now mret py_ret].
    + intros [= ->]. by rewrite Hp, Hk.
    + intros _. by rewrite Hp, Hk.
  - revert Eq. unfold entitlement_qualifies.
    destruct (bool_decide _); [|intros _; exact IH].
    destruct (priced_with_sku _ _) as [[]|]; [|intros _; exact IH | done].
    unfold mbind, py_bind.
    destruct (ent_expires e) as [expires|]; cbn; [|done].
    intros [= ->]. exact IH.
  - revert Eq. unfold entitlement_qualifies.
    destruct (bool_decide _); [|done].
    destruct (priced_with_sku _ _) as [[]|]; [done..|]. by intros [= ->].
Qed.

Lemma published_runs_run rs w :
  published_runs rs w
  = (if forallb (λ r, bool_decide (is_Some (run_status r))) rs
     then Return (List.filter published rs) else Raise KeyError, w).
Proof.
  induction rs as [|r rs IH]; [reflexivity|].
  cbn [published_runs forallb List.filter]. unfold mbind at 1, py_bind at 1.
  rewrite subscript_run. unfold published.
  destruct (run_status r) as [status|]; [|done].
  rewrite bool_decide_true by eauto. cbn [andb].
  unfold mbind, py_bind. rewrite IH.
  destruct (forallb _ rs); [|done]. unfold mret, py_ret. do 2 f_equal.
  destruct (String.eqb_spec status "published").
  - subst. by rewrite bool_decide_true.
  - rewrite bool_decide_false; [done | congruence].
Qed.

Lemma seats_loop_find ss w :
  seats_loop Decimal_of_string ss w
  = match first_qualifying seat_qualifies ss with
    | Return (Some s) => seat_result Decimal_of_string s w
    | Return None => (Return None, w)
    | Raise ex => (Raise ex, w)
    end.
Proof.
  induction ss as [|s ss IH]; [reflexivity|].
  cbn [seats_loop first_qualifying]. unfold mbind at 1, py_bind at 1.
  rewrite seat_test_run. by destruct (seat_qualifies s) as [[]|].
Qed.

(** A seat that ends the search gives its price as a [Decimal] with its
    sku, unless [Decimal] rejects the price. *)
Lemma seat_result_cases s w :
  seat_qualifies s = Return true →
  ∃ p k, seat_price s = Some p ∧ seat_sku s = Some (Some k) ∧ k ≠ ""%string
         ∧ truthy_price p = true
         ∧ (seat_result Decimal_of_string s w = (Raise InvalidOperation, w)
              ∧ (∃ str, p = PriceStr str ∧ Decimal_of_string str = None)
            ∨ ∃ d, seat_result Decimal_of_string s w = (Return (Some (PriceDec d, Some k)), w)
                   ∧ to_Decimal Decimal_of_string p w = (Return d, w)).
Proof.
  intros Hs. destruct (seat_qualifies_true _ Hs) as (p & k & Hp & Hk & Ht & Hne).
  exists p, k. do 4 (split; [done|]).
  unfold seat_result, mbind, py_bind. rewrite Hp, Hk. cbn [from_option id].
  destruct p as [|str|d]; [done| |].
  - cbn [to_Decimal]. destruct (Decimal_of_string str) as [d|] eqn:E.
    + right. by exists d.
    + left. split; [done|]. by exists str.
  - right. by exists d.
Qed.

Lemma first_qualifying_Some {A} (test : A → outcome bool) l x :
  first_qualifying test l = Return (Some x) → x ∈ l ∧ test x = Return true.
Proof.
  induction l as [|y l IH]; [done|]. cbn [first_qualifying].
  destruct (test y) as [[]|] eqn:E; [|..|done].
  - intros [= ->]. split; [constructor | done].
  - intros Hx. destruct (IH Hx). split; [by constructor | done].
Qed.

Lemma first_qualifying_None {A} (test : A → outcome bool) l :
  first_qualifying test l = Return None ↔ ∀ x, x ∈ l → test x = Return false.
Proof.
  induction l as [|y l IH]; cbn [first_qualifying].
  - split; [|done]. intros _ x Hx. by apply elem_of_nil in Hx.
  - split.
    + destruct (test y) as [[]|] eqn:E; [done| |done].
      intros Hl x Hx. apply elem_of_cons in Hx as [-> | Hx]; [done|]. by apply IH.
    + intros Hall. rewrite (Hall y) by constructor. apply IH.
      intros x Hx. apply Hall. by constructor.
Qed.

Lemma first_qualifying_app_first {A} (test : A → outcome bool) pre x post :
  Forall (λ y, test y = Return false) pre →
  first_qualifying test (pre ++ x :: post)
  = match test x with
    | Return true => Return (Some x)
    | Return false => first_qualifying test post
    | Raise e => Raise e
    end.
Proof.
  induction 1 as [|y pre Hy Hpre IH]; [done|]. cbn [app first_qualifying]. by rewrite Hy.
Qed.

Lemma first_seat_Some rs s :
  first_seat rs = Return (Some s) →
  (∃ r, r ∈ rs ∧ s ∈ seats_of r) ∧ seat_qualifies s = Return true.
Proof.
  induction rs as [|r rs IH]; [done|]. cbn [first_seat].
  destruct (run_seats r) as [ss|] eqn:Er; [|done].
  destruct (first_qualifying seat_qualifies ss) as [[s'|]|] eqn:E; [| |done].
  - intros [= ->]. apply first_qualifying_Some in E as [Hin Hs]. split; [|done].
    exists r. split; [constructor|]. unfold seats_of. by rewrite Er.
  - intros Hs. destruct (IH Hs) as [(r' & Hr' & Hin) Hq]. split; [|done].
    exists r'. split; [by constructor | done].
Qed.

Lemma priced_with_sku_raises price sku ex :
  priced_with_sku price sku = Raise ex → ex = KeyError.
Proof.
  unfold priced_with_sku. destruct price as [p|]; [|by intros [=]].
  destruct (truthy_price p); [|done]. destruct sku; [done | by intros [=]].
Qed.

Lemma entitlement_qualifies_raises t e ex :
  entitlement_qualifies t e = Raise ex → ex = KeyError.
Proof.
  unfold entitlement_qualifies. destruct (bool_decide _); [|done].
  destruct (priced_with_sku _ _) as [[]|ex'] eqn:E; [done..|].
  intros [= <-]. by apply priced_with_sku_raises in E.
Qed.

Lemma seat_qualifies_raises s ex : seat_qualifies s = Raise ex → ex = KeyError.
Proof.
  unfold seat_qualifies. destruct (bool_decide _); [|done]. apply priced_with_sku_raises.
Qed.

Lemma first_qualifying_raises {A} (test : A → outcome bool) l ex :
  first_qualifying test l = Raise ex →
  (∀ x ex', test x = Raise ex' → ex' = KeyError) → ex = KeyError.
Proof.
  intros E Htest. induction l as [|x l IH]; [done|]. revert E. cbn [first_qualifying].
  destruct (test x) as [[]|ex'] eqn:Ex; [done | exact IH |].
  intros [= <-]. by apply Htest in Ex.
Qed.

Lemma first_seat_raises rs ex : first_seat rs = Raise ex → ex = KeyError.
Proof.
  induction rs as [|r rs IH]; [done|]. cbn [first_seat].
  destruct (run_seats r) as [ss|]; [|by intros [=]].
  destruct (first_qualifying seat_qualifies ss) as [[s|]|ex'] eqn:E; [done | exact IH |].
  intros [= <-]. apply first_qualifying_raises in E; [done|]. apply seat_qualifies_raises.
Qed.

Lemma first_seat_None rs :
  first_seat rs = Return None
  ↔ ∀ r, r ∈ rs → ∃ ss, run_seats r = Some ss
                        ∧ ∀ s, s ∈ ss → seat_qualifies s = Return false.
Proof.
  induction rs as [|r rs IH]; cbn [first_seat].
  - split; [|done]. intros _ r Hr. by apply elem_of_nil in Hr.
  - split.
    + destruct (run_seats r) as [ss|] eqn:Er; [|done].
      destruct (first_qualifying seat_qualifies ss) as [[s'|]|] eqn:E; [done| |done].
      intros Hrest r' Hr'. apply elem_of_cons in Hr' as [-> | Hr'].
      * exists ss. split; [done|]. by apply first_qualifying_None.
      * by apply IH.
    + intros Hall. destruct (Hall r) as (ss & -> & Hss); [constructor|].
      apply first_qualifying_None in Hss as ->. apply IH.
      intros r' Hr'. apply Hall. by constructor.
Qed.

Lemma published_course_runs_loop_find rs w :
  published_course_runs_loop Decimal_of_string rs w
  = match first_seat rs with
    | Return (Some s) =>
        match seat_result Decimal_of_string s w with
        | (Return (Some x), w') => (Return (Some x), w')
        | (Return None, w') => (Return None, w')
        | (Raise ex, w') => (Raise ex, w')
        end
    | Return None => (Return None, w)
    | Raise ex => (Raise ex, w)
    end.
Proof.
  induction rs as [|r rs IH]; [reflexivity|].
  cbn [published_course_runs_loop first_seat]. unfold mbind at 1, py_bind at 1.
  rewrite subscript_run. destruct (run_seats r) as [ss|]; [|done].
  unfold mbind, py_bind. rewrite seats_loop_find.
  destruct (first_qualifying seat_qualifies ss) as [[s|]|] eqn:E; [|exact IH | done].
  apply first_qualifying_Some in E as [_ Hs].
  destruct (seat_result_cases s w Hs)
    as (p & k & _ & _ & _ & _ & [[-> _] | (d & -> & _)]); done.
Qed.

(** The call on a course, as a search of the catalog. *)
Lemma get_course_entitlement_price_and_sku_find c w :
  get_course_entitlement_price_and_sku Decimal_of_string c w
  = match first_qualifying (entitlement_qualifies (clock w)) (default [] (entitlements c)) with
    | Return (Some e) =>
        (Return (default PriceNone (ent_price e), default None (ent_sku e)), w)
    | Return None =>
        if forallb (λ r, bool_decide (is_Some (run_status r))) (default [] (course_runs c))
        then
          match first_seat (List.filter published (default [] (course_runs c))) with
          | Return (Some s) =>
              match seat_result Decimal_of_string s w with
              | (Return (Some x), w') => (Return x, w')
              | (Return None, w') => (Return (PriceNone, None), w')
              | (Raise ex, w') => (Raise ex, w')
              end
          | Return None => (Return (PriceNone, None), w)
          | Raise ex => (Raise ex, w)
          end
        else (Raise KeyError, w)
    | Raise ex => (Raise ex, w)
    end.
Proof.
  unfold get_course_entitlement_price_and_sku, mbind, py_bind.
  rewrite entitlements_loop_find.
  destruct (first_qualifying _ (default [] (entitlements c))) as [[e|]|]; [done| |done].
  rewrite published_runs_run.
  destruct (forallb _ _); [|done].
  rewrite published_course_runs_loop_find.
  destruct (first_seat _) as [[s|]|] eqn:E; [|done..].
  apply first_seat_Some in E as [_ Hs].
  destruct (seat_result_cases s w Hs)
    as (p & k & _ & _ & _ & _ & [[-> _] | (d & -> & _)]); done.
Qed.

(** The call reads the world and leaves it as it was. *)
Lemma get_course_entitlement_price_and_sku_world c w :
  (get_course_entitlement_price_and_sku Decimal_of_string c w).2 = w.
Proof.
  rewrite get_course_entitlement_price_and_sku_find.
  destruct (first_qualifying _ _) as [[e|]|]; [done| |done].
  destruct (forallb _ _); [|done].
  destruct (first_seat _) as [[s|]|] eqn:E; [|done..].
  apply first_seat_Some in E as [_ Hs].
  destruct (seat_result_cases s w Hs)
    as (p & k & _ & _ & _ & _ & [[-> _] | (d & -> & _)]); done.
Qed.

Lemma run_pair {A} (m : py A) w o :
  result_of m w = o → (m w).2 = w → m w = (o, w).
Proof. unfold result_of. destruct (m w) as [o' w']. simpl. by intros -> ->. Qed.

(** The ways a course enters the loop of the program price: its search
    raises [KeyError] or [InvalidOperation], finds nothing, or finds a
    price that is not [None] with a sku of the catalog. *)
Lemma get_course_entitlement_price_and_sku_cases c w :
  get_course_entitlement_price_and_sku Decimal_of_string c w = (Raise KeyError, w)
  ∨ get_course_entitlement_price_and_sku Decimal_of_string c w = (Raise InvalidOperation, w)
  ∨ get_course_entitlement_price_and_sku Decimal_of_string c w
    = (Return (PriceNone, None), w)
  ∨ ∃ p sku,
      get_course_entitlement_price_and_sku Decimal_of_string c w = (Return (p, Some sku), w)
      ∧ p ≠ PriceNone ∧ sku ≠ ""%string ∧ Some sku ∈ catalog_skus c.
Proof.
  rewrite get_course_entitlement_price_and_sku_find.
  destruct (first_qualifying _ (default [] (entitlements c))) as [[e|]|ex] eqn:Ee.
  - apply first_qualifying_Some in Ee as [Hin He].
    destruct (entitlement_qualifies_true _ _ He) as (p & k & Hp & Hk & Ht & Hne).
    right. right. right. exists p, k. rewrite Hp, Hk. split; [done|].
    split; [by destruct p|]. split; [done|].
    unfold catalog_skus. apply elem_of_app. left.
    apply list_elem_of_omap. by exists e.
  - destruct (forallb _ _); [|by left].
    destruct (first_seat _) as [[s|]|ex] eqn:Es.
    + apply first_seat_Some in Es as [(r & Hr & Hin) Hs].
      destruct (seat_result_cases s w Hs)
        as (p & k & Hp & Hk & Hne & _ & [[-> _] | (d & -> & _)]); [auto|].
      right. right. right. exists (PriceDec d), k. split; [done|].
      split; [done|]. split; [done|].
      unfold catalog_skus. apply elem_of_app. right.
      apply list_elem_of_omap. exists s. split; [|done].
      apply list_elem_of_In, in_flat_map. exists r.
      apply list_elem_of_In, list_elem_of_In in Hr.
      apply list_elem_of_In in Hr. apply filter_In in Hr as [Hr _].
      split; [done | by apply list_elem_of_In].
    + auto.
    + apply first_seat_raises in Es as ->. by left.
  - apply first_qualifying_raises in Ee as ->; [by left|].
    intros e ex'. apply entitlement_qualifies_raises.
Qed.

End PriceSearch.

(** ** The loop of the program price *)

Section ProgramPriceLoop.

Variable Decimal_of_string : string → option decimal.

Lemma program_price_loop_skip c rest acc skus w :
  get_course_entitlement_price_and_sku Decimal_of_string c w = (Return (PriceNone, None), w) →
  program_price_loop Decimal_of_string (c :: rest) acc skus w
  = program_price_loop Decimal_of_string rest acc skus w.
Proof.
  intros E. cbn [program_price_loop]. unfold mbind at 1, py_bind at 1. by rewrite E.
Qed.

Lemma program_price_loop_raise c rest acc skus w e :
  get_course_entitlement_price_and_sku Decimal_of_string c w = (Raise e, w) →
  program_price_loop Decimal_of_string (c :: rest) acc skus w = (Raise e, w).
Proof.
  intros E. cbn [program_price_loop]. unfold mbind at 1, py_bind at 1. by rewrite E.
Qed.

Lemma program_price_loop_add c rest acc skus w p sku :
  get_course_entitlement_price_and_sku Decimal_of_string c w = (Return (p, Some sku), w) →
  p ≠ PriceNone →
  program_price_loop Decimal_of_string (c :: rest) acc skus w
  = match to_Decimal Decimal_of_string p w with
    | (Return d, w') =>
        match decimal_add acc d with
        | Return total =>
            program_price_loop Decimal_of_string rest total (skus ++ [sku]) w'
        | Raise e => (Raise e, w')
        end
    | (Raise e, w') => (Raise e, w')
    end.
Proof.
  intros E Hp. cbn [program_price_loop]. unfold mbind at 1, py_bind at 1. rewrite E.
  destruct p as [|s|d]; [done| |]; cbn iota beta; unfold mbind, py_bind;
    change (to_Decimal Decimal_of_string (PriceDec acc) w) with (Return acc, w);
    cbn iota beta; destruct (to_Decimal Decimal_of_string _ w) as [[d'|?] w']; [|done| |done];
    unfold of_outcome; by destruct (decimal_add acc d').
Qed.

Lemma to_Decimal_cases p w :
  p ≠ PriceNone →
  to_Decimal Decimal_of_string p w = (Raise InvalidOperation, w)
  ∨ ∃ d, to_Decimal Decimal_of_string p w = (Return d, w).
Proof.
  destruct p as [|s|d]; intros Hp; [done| |]; cbn; [|eauto].
  destruct (Decimal_of_string s); cbn; eauto.
Qed.

Lemma program_price_loop_cases courses :
  ∀ acc skus w,
    (∃ e, program_price_loop Decimal_of_string courses acc skus w = (Raise e, w)
          ∧ price_exception e)
    ∨ ∃ total added,
        program_price_loop Decimal_of_string courses acc skus w
        = (Return (total, skus ++ added), w)
        ∧ (length added ≤ length courses)%nat
        ∧ (∀ sku, sku ∈ added → ∃ c, c ∈ courses ∧ Some sku ∈ catalog_skus c)
        ∧ (added = [] → total = acc).
Proof.
  unfold price_exception.
  induction courses as [|c cs IH]; intros acc skus w.
  - right. exists acc, []. rewrite app_nil_r. split; [done|]. split; [done|].
    split; [|done]. intros sku Hsku. by apply elem_of_nil in Hsku.
  - destruct (get_course_entitlement_price_and_sku_cases Decimal_of_string c w)
      as [E | [E | [E | (p & sku & E & Hp & _ & Hin)]]].
    + left. exists KeyError. split; [by apply program_price_loop_raise | auto].
    + left. exists InvalidOperation. split; [by apply program_price_loop_raise | auto].
    + rewrite (program_price_loop_skip _ _ _ _ _ E).
      destruct (IH acc skus w) as [He | (total & added & -> & Hlen & Hsk & Hnil)];
        [by left|].
      right. exists total, added. split; [done|]. split; [simpl; lia|].
      split; [|done]. intros s Hs. destruct (Hsk s Hs) as (c' & Hc' & Hs').
      exists c'. split; [by apply list_elem_of_further | done].
    + rewrite (program_price_loop_add _ _ _ _ _ _ _ E Hp).
      destruct (to_Decimal_cases p w Hp) as [-> | [d ->]]; [left; eauto|].
      destruct (decimal_add acc d) as [total'|e] eqn:Eadd.
      2:{ left. exists e. split; [done|]. apply decimal_add_raises in Eadd. tauto. }
      destruct (IH total' (skus ++ [sku]) w)
        as [He | (total & added & -> & Hlen & Hsk & Hnil)]; [by left|].
      right. exists total, (sku :: added). rewrite <- app_assoc.
      split; [done|]. split; [simpl; lia|]. split; [|done].
      intros s Hs. apply elem_of_cons in Hs as [-> | Hs].
      * exists c. split; [constructor | done].
      * destruct (Hsk s Hs) as (c' & Hc' & Hs').
        exists c'. split; [by apply list_elem_of_further | done].
Qed.

Lemma program_price_loop_world courses acc skus w :
  (program_price_loop Decimal_of_string courses acc skus w).2 = w.
Proof.
  destruct (program_price_loop_cases courses acc skus w)
    as [(e & -> & _) | (total & added & -> & _)]; done.
Qed.

Lemma program_price_loop_app pre post :
  ∀ acc skus w,
    program_price_loop Decimal_of_string (pre ++ post) acc skus w
    = match program_price_loop Decimal_of_string pre acc skus w with
      | (Return (total, skus'), w') =>
          program_price_loop Decimal_of_string post total skus' w'
      | (Raise e, w') => (Raise e, w')
      end.
Proof.
  induction pre as [|c cs IH]; intros acc skus w; [done|].
  cbn [app].
  destruct (get_course_entitlement_price_and_sku_cases Decimal_of_string c w)
    as [E | [E | [E | (p & sku & E & Hp & _)]]].
  - by rewrite !(program_price_loop_raise _ _ _ _ _ _ E).
  - by rewrite !(program_price_loop_raise _ _ _ _ _ _ E).
  - rewrite !(program_price_loop_skip _ _ _ _ _ E). apply IH.
  - rewrite !(program_price_loop_add _ _ _ _ _ _ _ E Hp).
    destruct (to_Decimal_cases p w Hp) as [-> | [d ->]]; [done|].
    destruct (decimal_add acc d); [apply IH | done].
Qed.

End ProgramPriceLoop.

(** ** The price of a program *)

Section Prices.

Variable Decimal_of_string : string → option decimal.
Variable format_course_price : decimal → string.











End Prices.

(** ** The helpers on the sample catalog *)

Example demo_run_enrolled :
  result_of (is_enrolled_in_course_run Sample.CourseKey_from_string
               Sample.demo_run (enrollment_ids Sample.enrolled)) world0
  = Return true.
Proof. vm_compute. reflexivity. Qed.

Example broken_run_logged :
  log (is_enrolled_in_course_run Sample.CourseKey_from_string
         Sample.broken_run (enrollment_ids Sample.enrolled) world0).2
  = ["Unable to determine if user was enrolled since the course key edX/DemoX is invalid"%string].
Proof. vm_compute. reflexivity. Qed.

Example sample_unenrolled :
  result_of (get_unenrolled_courses Sample.CourseKey_from_string
               [Sample.demo_course; Sample.entitled_course] Sample.enrolled) world0
  = Return [Sample.entitled_course].
Proof. vm_compute. reflexivity. Qed.

Example sample_program_price :
  result_of (get_program_price_and_skus Sample.Decimal_of_string Sample.format_course_price
               [Sample.demo_course; Sample.free_course; Sample.entitled_course]) world0
  = Return (Some "$198"%string, Some ["8CF08E5"; "FREE000"; "A5B6DBE"]%string).
Proof. vm_compute. reflexivity. Qed.

Example sample_free_program :
  result_of (get_program_price_and_skus Sample.Decimal_of_string Sample.format_course_price
               [Sample.free_course]) world0
  = Return (None, None).
Proof. vm_compute. reflexivity. Qed.

Lemma is_enrolled_in_course_run_invalid_key_witness :
  Sample.CourseKey_from_string (run_key Sample.broken_run) = None
  ∧ result_of (is_enrolled_in_course_run Sample.CourseKey_from_string
                 Sample.broken_run (enrollment_ids Sample.enrolled)) world0
    = Return false.
Proof.
  split; [reflexivity|].
  apply is_enrolled_in_course_run_invalid_key. reflexivity.
Defined.






(** * Further properties of the helpers *)

(** ** Enrollment, read on the catalog *)

Section EnrollmentFacts.

Context {CourseKey : Type} `{Countable CourseKey}.
Variable CourseKey_from_string : option string → option CourseKey.

Lemma elem_of_enrollment_ids (es : list (@enrollment CourseKey)) k :
  k ∈ enrollment_ids es ↔ ∃ e, e ∈ es ∧ course_id e = k.
Proof.
  unfold enrollment_ids. rewrite elem_of_list_to_set, list_elem_of_In, in_map_iff.
  split; intros (e & H1 & H2); exists e; rewrite ?list_elem_of_In in *; auto.
Qed.

Lemma course_enrolled_true (es : list (@enrollment CourseKey)) c :
  course_enrolled CourseKey_from_string (enrollment_ids es) c = true
  ↔ has_enrolled_run CourseKey_from_string es c.
Proof.
  unfold course_enrolled, has_enrolled_run, run_enrolled.
  rewrite existsb_exists. split.
  - intros (cr & Hin & Hrun). apply list_elem_of_In in Hin.
    destruct (CourseKey_from_string (run_key cr)) as [k|] eqn:Ek; [|discriminate].
    apply bool_decide_eq_true in Hrun.
    apply elem_of_enrollment_ids in Hrun as (e & He & Hk).
    exists cr, k, e. auto.
  - intros (cr & k & e & Hin & Ek & He & Hk). exists cr.
    split; [by apply list_elem_of_In|]. rewrite Ek.
    apply bool_decide_eq_true, elem_of_enrollment_ids. eauto.
Qed.

(** X1. [is_enrolled_in_course] never raises; it returns [True] exactly
    when some course run of the course has a key that parses to the course
    id of one of the enrollments. *)
Theorem is_enrolled_in_course_iff
    (c : course) (user_enrollments : list (@enrollment CourseKey)) (w : world) :
  ∃ b : bool,
    result_of (is_enrolled_in_course CourseKey_from_string c
                 (enrollment_ids user_enrollments)) w = Return b
    ∧ (b = true ↔ has_enrolled_run CourseKey_from_string user_enrollments c).
Proof.
  destruct (is_enrolled_in_course_value CourseKey_from_string c
              (enrollment_ids user_enrollments) w) as [w' E].
  unfold result_of. rewrite E. eexists. split; [reflexivity|].
  apply course_enrolled_true.
Qed.

(** X2. [get_unenrolled_courses] never raises; it returns the list of
    the courses with those removed that have a course run with a key parsing
    to the course id of one of the enrollments: the others stay, in their
    order and as often as they occur. *)
Theorem get_unenrolled_courses_exact
    (courses : list course) (user_enrollments : list (@enrollment CourseKey))
    (w : world) :
  ∃ unenrolled : course → bool,
    (∀ c, unenrolled c = true
          ↔ ¬ has_enrolled_run CourseKey_from_string user_enrollments c)
    ∧ result_of (get_unenrolled_courses CourseKey_from_string courses user_enrollments) w
      = Return (List.filter unenrolled courses).
Proof.
  exists (λ c, negb (course_enrolled CourseKey_from_string
                       (enrollment_ids user_enrollments) c)).
  split.
  - intros c. by rewrite negb_true_iff, <- not_true_iff_false, course_enrolled_true.
  - unfold result_of, get_unenrolled_courses.
    by destruct (unenrolled_loop_value CourseKey_from_string courses
                   (enrollment_ids user_enrollments) [] w) as [w' ->].
Qed.

(** X3. [is_enrolled_in_all_courses] never raises; it returns [True]
    exactly when every course has a course run with a key parsing to the
    course id of one of the enrollments. *)
Theorem is_enrolled_in_all_courses_iff
    (courses : list course) (user_enrollments : list (@enrollment CourseKey))
    (w : world) :
  ∃ b : bool,
    result_of (is_enrolled_in_all_courses CourseKey_from_string courses user_enrollments) w
    = Return b
    ∧ (b = true
       ↔ ∀ c, c ∈ courses → has_enrolled_run CourseKey_from_string user_enrollments c).
Proof.
  unfold result_of, is_enrolled_in_all_courses.
  destruct (all_courses_loop_value CourseKey_from_string courses
              (enrollment_ids user_enrollments) w) as [w' ->].
  eexists. split; [reflexivity|].
  rewrite forallb_forall. split.
  - intros Hall c Hc. apply course_enrolled_true, Hall. by apply list_elem_of_In.
  - intros Hall c Hc. apply course_enrolled_true, Hall. by apply list_elem_of_In.
Qed.

End EnrollmentFacts.

Section EnrollmentLaws.

Context {CourseKey : Type} `{Countable CourseKey}.
Variable CourseKey_from_string : option string → option CourseKey.

Lemma get_unenrolled_courses_run courses (es : list (@enrollment CourseKey)) w :
  result_of (get_unenrolled_courses CourseKey_from_string courses es) w
  = Return (List.filter
              (λ c, negb (course_enrolled CourseKey_from_string (enrollment_ids es) c))
              courses).
Proof.
  unfold result_of, get_unenrolled_courses.
  by destruct (unenrolled_loop_value CourseKey_from_string courses
                 (enrollment_ids es) [] w) as [w' ->].
Qed.

Lemma is_enrolled_in_all_courses_run courses (es : list (@enrollment CourseKey)) w :
  result_of (is_enrolled_in_all_courses CourseKey_from_string courses es) w
  = Return (forallb (course_enrolled CourseKey_from_string (enrollment_ids es)) courses).
Proof.
  unfold result_of, is_enrolled_in_all_courses.
  by destruct (all_courses_loop_value CourseKey_from_string courses
                 (enrollment_ids es) w) as [w' ->].
Qed.

Lemma has_enrolled_run_mono (es es' : list (@enrollment CourseKey)) c :
  es ⊆ es' →
  has_enrolled_run CourseKey_from_string es c →
  has_enrolled_run CourseKey_from_string es' c.
Proof.
  intros Hsub (cr & k & e & Hcr & Hk & He & Hid). exists cr, k, e. auto.
Qed.

Lemma filter_sublist_impl {A} (f g : A → bool) l :
  (∀ x, f x = true → g x = true) →
  List.filter f l `sublist_of` List.filter g l.
Proof.
  intros Hfg. induction l as [|x l IH]; simpl; [constructor|].
  destruct (f x) eqn:Ef.
  - rewrite (Hfg x Ef). by constructor.
  - destruct (g x); [by constructor | done].
Qed.

(** X4. Adding enrollments never adds an unenrolled course: with more
    enrollments [get_unenrolled_courses] returns a sublist of what it
    returned before. *)
Theorem get_unenrolled_courses_antitone
    (courses : list course) (es es' : list (@enrollment CourseKey)) (w w' : world) :
  es ⊆ es' →
  ∃ before after,
    result_of (get_unenrolled_courses CourseKey_from_string courses es) w
    = Return before
    ∧ result_of (get_unenrolled_courses CourseKey_from_string courses es') w'
      = Return after
    ∧ after `sublist_of` before.
Proof.
  intros Hsub. rewrite !get_unenrolled_courses_run.
  eexists _, _. split; [reflexivity|]. split; [reflexivity|].
  apply filter_sublist_impl. intros c.
  rewrite !negb_true_iff, <- !not_true_iff_false, !course_enrolled_true.
  intros Hno Hyes. apply Hno. by apply (has_enrolled_run_mono es es').
Qed.

(** X5. [get_unenrolled_courses] distributes over the concatenation of
    course lists. *)
Theorem get_unenrolled_courses_app
    (courses1 courses2 : list course) (es : list (@enrollment CourseKey)) (w : world) :
  ∃ r1 r2,
    result_of (get_unenrolled_courses CourseKey_from_string courses1 es) w = Return r1
    ∧ result_of (get_unenrolled_courses CourseKey_from_string courses2 es) w = Return r2
    ∧ result_of (get_unenrolled_courses CourseKey_from_string (courses1 ++ courses2) es) w
      = Return (r1 ++ r2).
Proof.
  rewrite !get_unenrolled_courses_run. eexists _, _.
  split; [reflexivity|]. split; [reflexivity|]. by rewrite List.filter_app.
Qed.

Lemma course_enrolled_same_ids (es es' : list (@enrollment CourseKey)) c :
  (∀ e, e ∈ es ↔ e ∈ es') →
  course_enrolled CourseKey_from_string (enrollment_ids es) c
  = course_enrolled CourseKey_from_string (enrollment_ids es') c.
Proof.
  intros Hsame. apply eq_true_iff_eq. rewrite !course_enrolled_true.
  split; apply has_enrolled_run_mono; intros e; apply Hsame.
Qed.

(** X6. The order and the repetitions of the enrollments do not matter:
    two enrollment lists with the same elements give the same unenrolled
    courses and the same answer of [is_enrolled_in_all_courses]. *)
Theorem enrollment_order_irrelevant
    (courses : list course) (es es' : list (@enrollment CourseKey)) (w w' : world) :
  (∀ e, e ∈ es ↔ e ∈ es') →
  result_of (get_unenrolled_courses CourseKey_from_string courses es) w
  = result_of (get_unenrolled_courses CourseKey_from_string courses es') w'
  ∧ result_of (is_enrolled_in_all_courses CourseKey_from_string courses es) w
    = result_of (is_enrolled_in_all_courses CourseKey_from_string courses es') w'.
Proof.
  intros Hsame.
  rewrite !get_unenrolled_courses_run, !is_enrolled_in_all_courses_run.
  split; f_equal.
  - apply List.filter_ext. intros c. f_equal. by apply course_enrolled_same_ids.
  - induction courses as [|c cs IH]; [done|]. simpl.
    by rewrite IH, (course_enrolled_same_ids es es').
Qed.

Lemma is_enrolled_in_course_run_valid cr (ids : gset CourseKey) w :
  is_Some (CourseKey_from_string (run_key cr)) →
  (is_enrolled_in_course_run CourseKey_from_string cr ids w).2 = w.
Proof.
  intros [k Hk]. unfold is_enrolled_in_course_run, try_except. by rewrite Hk.
Qed.

Lemma course_runs_loop_valid rs (ids : gset CourseKey) w :
  (∀ cr, cr ∈ rs → is_Some (CourseKey_from_string (run_key cr))) →
  (course_runs_loop CourseKey_from_string rs ids w).2 = w.
Proof.
  induction rs as [|r rs IH]; intros Hvalid; [done|].
  cbn [course_runs_loop]. unfold mbind, py_bind.
  pose proof (is_enrolled_in_course_run_valid r ids w (Hvalid r (list_elem_of_here _ _))) as Hw.
  destruct (is_enrolled_in_course_run_value CourseKey_from_string r ids w) as [w1 E].
  rewrite E in Hw |- *. cbn [snd] in Hw. subst w1.
  destruct (run_enrolled CourseKey_from_string ids r); [done|].
  apply IH. intros cr Hcr. apply Hvalid. by apply list_elem_of_further.
Qed.

Lemma is_enrolled_in_course_valid c (ids : gset CourseKey) w :
  (∀ cr, cr ∈ default [] (course_runs c) → is_Some (CourseKey_from_string (run_key cr))) →
  (is_enrolled_in_course CourseKey_from_string c ids w).2 = w.
Proof.
  unfold is_enrolled_in_course. destruct (course_runs c) as [[|r rs]|]; [done| |done].
  apply course_runs_loop_valid.
Qed.

(** X7. When every key of every course run parses, the two enrollment
    queries leave the world as it was: nothing is logged. *)
Theorem enrollment_queries_read_only
    (courses : list course) (es : list (@enrollment CourseKey)) (w : world) :
  keys_valid CourseKey_from_string courses →
  (get_unenrolled_courses CourseKey_from_string courses es w).2 = w
  ∧ (is_enrolled_in_all_courses CourseKey_from_string courses es w).2 = w.
Proof.
  unfold keys_valid, get_unenrolled_courses, is_enrolled_in_all_courses.
  generalize (enrollment_ids es) as ids. intros ids Hvalid. split.
  - generalize (@nil course) as acc.
    induction courses as [|c cs IH]; intros acc; [done|].
    cbn [unenrolled_loop]. unfold mbind, py_bind.
    pose proof (is_enrolled_in_course_valid c ids w
                  (λ cr, Hvalid c cr (list_elem_of_here _ _))) as Hw.
    destruct (is_enrolled_in_course_value CourseKey_from_string c ids w) as [w1 E].
    rewrite E in Hw |- *. cbn [snd] in Hw. subst w1.
    destruct (course_enrolled CourseKey_from_string ids c);
      apply IH; intros c' cr Hc'; apply Hvalid; by apply list_elem_of_further.
  - induction courses as [|c cs IH]; [done|].
    cbn [all_courses_loop]. unfold mbind, py_bind.
    pose proof (is_enrolled_in_course_valid c ids w
                  (λ cr, Hvalid c cr (list_elem_of_here _ _))) as Hw.
    destruct (is_enrolled_in_course_value CourseKey_from_string c ids w) as [w1 E].
    rewrite E in Hw |- *. cbn [snd] in Hw. subst w1.
    destruct (course_enrolled CourseKey_from_string ids c); [|done].
    apply IH; intros c' cr Hc'; apply Hvalid; by apply list_elem_of_further.
Qed.

Lemma all_courses_loop_app pre post (ids : gset CourseKey) w :
  all_courses_loop CourseKey_from_string (pre ++ post) ids w
  = match all_courses_loop CourseKey_from_string pre ids w with
    | (Return true, w') => all_courses_loop CourseKey_from_string post ids w'
    | r => r
    end.
Proof.
  revert w. induction pre as [|c cs IH]; intros w; [done|].
  cbn [app all_courses_loop]. unfold mbind, py_bind.
  destruct (is_enrolled_in_course_value CourseKey_from_string c ids w) as [w1 ->].
  destruct (course_enrolled CourseKey_from_string ids c); [apply IH | done].
Qed.

(** X8. [is_enrolled_in_all_courses] stops at the first course the user is
    not enrolled in: the courses after it are not examined, so the answer
    and the warnings logged are those of the list cut after that course. *)
Theorem is_enrolled_in_all_courses_stops
    (pre post : list course) (c : course) (es : list (@enrollment CourseKey))
    (w : world) :
  ¬ has_enrolled_run CourseKey_from_string es c →
  is_enrolled_in_all_courses CourseKey_from_string (pre ++ c :: post) es w
  = is_enrolled_in_all_courses CourseKey_from_string (pre ++ [c]) es w
  ∧ result_of (is_enrolled_in_all_courses CourseKey_from_string (pre ++ c :: post) es) w
    = Return false.
Proof.
  intros Hno. rewrite <- course_enrolled_true in Hno.
  apply not_true_is_false in Hno.
  assert (Hc : ∀ rest w0,
             all_courses_loop CourseKey_from_string (c :: rest) (enrollment_ids es) w0
             = (Return false,
                (is_enrolled_in_course CourseKey_from_string c (enrollment_ids es) w0).2)).
  { intros rest w0. cbn [all_courses_loop]. unfold mbind, py_bind.
    destruct (is_enrolled_in_course_value CourseKey_from_string c
                (enrollment_ids es) w0) as [w1 ->].
    by rewrite Hno. }
  split.
  - unfold is_enrolled_in_all_courses. rewrite !all_courses_loop_app.
    destruct (all_courses_loop CourseKey_from_string pre (enrollment_ids es) w)
      as [[[|]|e] w1]; [|done..].
    by rewrite !Hc.
  - rewrite is_enrolled_in_all_courses_run, forallb_app. simpl.
    rewrite Hno. by rewrite andb_false_r.
Qed.

End EnrollmentLaws.

(** ** The price and sku of a course, read on the catalog *)

Section PriceFacts.

Variable Decimal_of_string : string → option decimal.
Variable format_course_price : decimal → string.

(** X9. An entitlement comes before any seat. When the entitlements of
    the course are [before ++ e :: after] and every entitlement of [before]
    is tested without a [KeyError] and passed over (not verified, without a
    true price or sku, or expired), [e] decides whatever the course runs
    are: if it is verified with a true price and sku and unexpired, the call
    returns its price as the catalog has it and its sku; if it is verified
    and lacks the key ['price'], or has a true price and lacks the key
    ['sku'], the call raises [KeyError]. *)
Theorem get_course_entitlement_price_and_sku_entitlement_first
    (before after : list entitlement) (e : entitlement)
    (runs : option (list course_run)) (w : world) :
  Forall (λ e', entitlement_qualifies (clock w) e' = Return false) before →
  (entitlement_qualifies (clock w) e = Return true →
   ∃ p sku,
     ent_price e = Some p ∧ ent_sku e = Some (Some sku)
     ∧ get_course_entitlement_price_and_sku Decimal_of_string
         (Course (Some (before ++ e :: after)) runs) w
       = (Return (p, Some sku), w))
  ∧ (entitlement_qualifies (clock w) e = Raise KeyError →
     get_course_entitlement_price_and_sku Decimal_of_string
       (Course (Some (before ++ e :: after)) runs) w
     = (Raise KeyError, w)).
Proof.
  intros Hbefore. rewrite get_course_entitlement_price_and_sku_find.
  change (default [] (entitlements (Course (Some (before ++ e :: after)) runs)))
    with (before ++ e :: after).
  rewrite (first_qualifying_app_first _ _ _ _ Hbefore). split; intros He.
  - destruct (entitlement_qualifies_true _ _ He) as (p & k & Hp & Hk & _).
    exists p, k. by rewrite He, Hp, Hk.
  - by rewrite He.
Qed.

(** X10. [get_course_entitlement_price_and_sku] returns [(None, None)]
    exactly when every entitlement of the course is tested without a
    [KeyError] and passed over, every course run has the key ['status'],
    and every published course run has the key ['seats'] with seats that
    are all tested without a [KeyError] and passed over (not verified or
    without a true price or sku). *)
Theorem get_course_entitlement_price_and_sku_none_iff (c : course) (w : world) :
  result_of (get_course_entitlement_price_and_sku Decimal_of_string c) w
  = Return (PriceNone, None)
  ↔ (∀ e, e ∈ default [] (entitlements c) →
          entitlement_qualifies (clock w) e = Return false)
    ∧ (∀ r, r ∈ default [] (course_runs c) → is_Some (run_status r))
    ∧ (∀ r, r ∈ default [] (course_runs c) → run_status r = Some "published"%string →
            ∃ ss, run_seats r = Some ss
                  ∧ ∀ s, s ∈ ss → seat_qualifies s = Return false).
Proof.
  unfold result_of. rewrite get_course_entitlement_price_and_sku_find.
  rewrite <- first_qualifying_None.
  assert (Hstatus :
    forallb (λ r, bool_decide (is_Some (run_status r))) (default [] (course_runs c)) = true
    ↔ ∀ r, r ∈ default [] (course_runs c) → is_Some (run_status r)).
  { rewrite forallb_forall. split; intros Hall r Hr.
    - apply list_elem_of_In in Hr. by apply Hall, bool_decide_eq_true in Hr.
    - apply bool_decide_eq_true, Hall. by apply list_elem_of_In. }
  assert (Hseats :
    first_seat (List.filter published (default [] (course_runs c))) = Return None
    ↔ ∀ r, r ∈ default [] (course_runs c) → run_status r = Some "published"%string →
           ∃ ss, run_seats r = Some ss ∧ ∀ s, s ∈ ss → seat_qualifies s = Return false).
  { rewrite first_seat_None. split; intros Hall r Hr.
    - intros Hpub. apply Hall. apply list_elem_of_In, filter_In.
      split; [by apply list_elem_of_In | by apply bool_decide_eq_true].
    - apply list_elem_of_In, filter_In in Hr as [Hr Hpub].
      apply Hall; [by apply list_elem_of_In | by apply bool_decide_eq_true in Hpub]. }
  rewrite <- Hstatus, <- Hseats.
  destruct (first_qualifying _ (default [] (entitlements c))) as [[e|]|ex] eqn:Ee.
  - apply first_qualifying_Some in Ee as [_ He].
    destruct (entitlement_qualifies_true _ _ He) as (p & k & Hp & Hk & _).
    cbn [fst]. rewrite Hk. split; [intros [=] | intros [[=] _]].
  - destruct (forallb _ _); [|cbn [fst]; split; [intros [=] | intros (_ & [=] & _)]].
    destruct (first_seat _) as [[s|]|ex] eqn:Es.
    + apply first_seat_Some in Es as [_ Hs].
      destruct (seat_result_cases Decimal_of_string s w Hs)
        as (p & k & _ & _ & _ & _ & [[-> _] | (d & -> & _)]); cbn [fst];
        (split; [intros [=] | intros (_ & _ & [=])]).
    + cbn [fst]. tauto.
    + cbn [fst]. split; [intros [=] | intros (_ & _ & [=])].
  - cbn [fst]. split; [intros [=] | intros [[=] _]].
Qed.


End PriceFacts.

(** ** The price of a program, without assumptions on the prices *)

Section ProgramPriceFacts.

Variable Decimal_of_string : string → option decimal.
Variable format_course_price : decimal → string.




(** X14. A course without a price and sku is skipped: removing from the
    list a course for which [get_course_entitlement_price_and_sku] returns
    [(None, None)] changes neither the result nor the world. *)
Theorem get_program_price_and_skus_skips
    (pre post : list course) (c : course) (w : world) :
  result_of (get_course_entitlement_price_and_sku Decimal_of_string c) w
  = Return (PriceNone, None) →
  get_program_price_and_skus Decimal_of_string format_course_price (pre ++ c :: post) w
  = get_program_price_and_skus Decimal_of_string format_course_price (pre ++ post) w.
Proof.
  intros Hnone.
  assert (E : get_course_entitlement_price_and_sku Decimal_of_string c w
              = (Return (PriceNone, None), w)).
  { apply run_pair; [done|]. apply get_course_entitlement_price_and_sku_world. }
  unfold get_program_price_and_skus, mbind at 1 3, py_bind at 1 3.
  rewrite !program_price_loop_app.
  destruct (program_price_loop_cases Decimal_of_string pre (Decimal 0 0) [] w)
    as [(e & -> & _) | (total & added & -> & _)]; [done|].
  by rewrite (program_price_loop_skip _ _ _ _ _ _ E).
Qed.



End ProgramPriceFacts.

(** ** The bucket across bucket counts *)

Lemma bucket_hash_bounds g u :
  0 <= Reference.binary_value
         (Reference.transform (Reference.render (Reference.digest_of g u)))
  < 2 ^ 32.
Proof.
  rewrite transform_render.
  pose proof (binary_value_bounds (bits_string (Reference.digest_of g u))) as Hb.
  rewrite bits_string_length in Hb. unfold Reference.digest_of in Hb |- *.
  rewrite digest_length in Hb. exact Hb.
Qed.

(** X15. The hash has 32 bits: for every bucket count of 2^32 or more
    [stable_bucketing_hash_group] returns the same integer, below 2^32, so
    the buckets from 2^32 on are never assigned. *)
Theorem stable_bucketing_hash_group_at_most_32_bits
    (group_name username : text) (n1 n2 : Z) (w1 w2 : world) :
  2 ^ 32 <= n1 → 2 ^ 32 <= n2 →
  ∃ r : Z,
    result_of (stable_bucketing_hash_group group_name n1 username) w1 = Return r
    ∧ result_of (stable_bucketing_hash_group group_name n2 username) w2 = Return r
    ∧ 0 <= r < 2 ^ 32.
Proof.
  intros H1 H2. pose proof (bucket_hash_bounds group_name username) as Hb.
  assert (0 < 2 ^ 32) by lia.
  rewrite !stable_bucketing_hash_group_value by lia.
  unfold Reference.assign_bucket. rewrite !Z.mod_small by lia.
  eexists. split; [reflexivity|]. split; [reflexivity | exact Hb].
Qed.

Lemma stable_bucketing_hash_group_at_most_32_bits_witness :
  2 ^ 32 <= 2 ^ 32 ∧ 2 ^ 32 <= 2 ^ 40 ∧
  ∃ r : Z,
    result_of (stable_bucketing_hash_group
                 (text_of_string "exp1") (2 ^ 32) (text_of_string "alice")) world0
    = Return r
    ∧ result_of (stable_bucketing_hash_group
                   (text_of_string "exp1") (2 ^ 40) (text_of_string "alice")) world0
      = Return r
    ∧ 0 <= r < 2 ^ 32.
Proof.
  split; [lia|]. split; [lia|].
  apply stable_bucketing_hash_group_at_most_32_bits; lia.
Defined.

(** X16. Bucket counts that divide one another agree: when [m] divides
    [n], the bucket for [m] buckets is the bucket for [n] buckets reduced
    modulo [m]. *)
Theorem stable_bucketing_hash_group_divides
    (group_name username : text) (m n : Z) (w1 w2 : world) :
  1 <= m → 1 <= n → (m | n) →
  ∃ r : Z,
    result_of (stable_bucketing_hash_group group_name n username) w1 = Return r
    ∧ result_of (stable_bucketing_hash_group group_name m username) w2
      = Return (r mod m).
Proof.
  intros Hm Hn Hdiv.
  rewrite !stable_bucketing_hash_group_value by lia.
  eexists. split; [reflexivity|]. f_equal.
  unfold Reference.assign_bucket. symmetry. by apply Z.mod_mod_divide.
Qed.

Lemma stable_bucketing_hash_group_divides_witness :
  1 <= 5 ∧ 1 <= 10 ∧ (5 | 10) ∧
  ∃ r : Z,
    result_of (stable_bucketing_hash_group
                 (text_of_string "exp1") 10 (text_of_string "alice")) world0
    = Return r
    ∧ result_of (stable_bucketing_hash_group
                   (text_of_string "exp1") 5 (text_of_string "alice")) world0
      = Return (r mod 5).
Proof.
  split; [lia|]. split; [lia|]. split; [by exists 2|].
  apply stable_bucketing_hash_group_divides; [lia | lia | by exists 2].
Defined.

(** ** The upgrade link and its deadline *)

Section UpgradeFacts.

Context {CourseKey : Type} `{Countable CourseKey}.
Variable CourseEnrollment_get_enrollment : user → CourseKey → option (@course_enrollment CourseKey).
Variable verified_upgrade_link_is_valid : option (@course_enrollment CourseKey) → bool.
Variable verified_upgrade_deadline_link : user → option (@course_descriptor CourseKey) → string.

#[local] Set Warnings "-clear-no-such-hyp".

Ltac run_upgrade :=
  unfold xresult_of, check_and_get_upgrade_link_and_date, mbind, pyx_bind, getattr,
    mret, pyx_ret, xraise;
  cbn;
  repeat (case_decide; cbn).

(** X17. [check_and_get_upgrade_link_and_date] raises [ValueError] exactly
    when neither an enrollment nor a course is given, when the enrollment
    given is for another course than the course given, or when it belongs
    to another user. *)
Theorem check_and_get_upgrade_link_and_date_ValueError
    (u : user) (enrollment : option course_enrollment)
    (course : option course_descriptor) (w : world) :
  xresult_of (check_and_get_upgrade_link_and_date CourseEnrollment_get_enrollment
                verified_upgrade_link_is_valid verified_upgrade_deadline_link
                u enrollment course) w
  = XRaise (Builtin ValueError)
  ↔ (enrollment = None ∧ course = None)
    ∨ (∃ e c, enrollment = Some e ∧ course = Some c ∧ enr_course_id e ≠ cd_id c)
    ∨ (∃ e, enrollment = Some e ∧ Some (enr_user_id e) ≠ user_id u).
Proof.
  destruct enrollment as [e|], course as [c|]; run_upgrade;
    repeat (case_match; cbn); naive_solver.
Qed.

(** X18. [check_and_get_upgrade_link_and_date] raises [AttributeError]
    exactly when only the course is given, the lookup finds no enrollment of
    the user in it, the user is authenticated and the validity check accepts
    the missing enrollment: the deadline is then read on [None]. *)
Theorem check_and_get_upgrade_link_and_date_AttributeError
    (u : user) (enrollment : option course_enrollment)
    (course : option course_descriptor) (w : world) :
  xresult_of (check_and_get_upgrade_link_and_date CourseEnrollment_get_enrollment
                verified_upgrade_link_is_valid verified_upgrade_deadline_link
                u enrollment course) w
  = XRaise AttributeError
  ↔ enrollment = None
    ∧ ∃ c, course = Some c
           ∧ CourseEnrollment_get_enrollment u (cd_id c) = None
           ∧ is_authenticated u = true
           ∧ verified_upgrade_link_is_valid None = true.
Proof.
  destruct enrollment as [e|], course as [c|]; run_upgrade;
    try (destruct (is_authenticated u); cbn);
    try (destruct (CourseEnrollment_get_enrollment u (cd_id c)) eqn:?; cbn);
    repeat (case_match; cbn); naive_solver.
Qed.

(** X19. A user who is not authenticated gets no link and no date: the
    call raises [ValueError] on inconsistent arguments and returns
    [(None, None)] otherwise. *)
Theorem check_and_get_upgrade_link_and_date_anonymous
    (u : user) (enrollment : option course_enrollment)
    (course : option course_descriptor) (w : world) :
  is_authenticated u = false →
  xresult_of (check_and_get_upgrade_link_and_date CourseEnrollment_get_enrollment
                verified_upgrade_link_is_valid verified_upgrade_deadline_link
                u enrollment course) w
  = XRaise (Builtin ValueError)
  ∨ xresult_of (check_and_get_upgrade_link_and_date CourseEnrollment_get_enrollment
                  verified_upgrade_link_is_valid verified_upgrade_deadline_link
                  u enrollment course) w
    = XReturn (None, None).
Proof.
  intros Hanon.
  destruct enrollment as [e|], course as [c|]; run_upgrade; rewrite ?Hanon; cbn; auto.
Qed.

(** X20. A link is returned only to an authenticated user for an
    enrollment, the one given or the one found for the course, that the
    validity check accepts; the link is the upgrade link of the course and
    the date is the upgrade deadline of that enrollment. *)
Theorem check_and_get_upgrade_link_and_date_link
    (u : user) (enrollment : option course_enrollment)
    (course : option course_descriptor) (w : world)
    (link : string) (date : option Z) :
  xresult_of (check_and_get_upgrade_link_and_date CourseEnrollment_get_enrollment
                verified_upgrade_link_is_valid verified_upgrade_deadline_link
                u enrollment course) w
  = XReturn (Some link, date) →
  is_authenticated u = true
  ∧ ∃ e,
      verified_upgrade_link_is_valid (Some e) = true
      ∧ date = enr_upgrade_deadline e
      ∧ link = verified_upgrade_deadline_link u
                 (match course with Some c => Some c | None => Some (enr_course e) end)
      ∧ (enrollment = Some e
         ∨ enrollment = None
           ∧ ∃ c, course = Some c ∧ CourseEnrollment_get_enrollment u (cd_id c) = Some e).
Proof.
  destruct enrollment as [e|], course as [c|]; run_upgrade;
    try (destruct (is_authenticated u); cbn);
    try (destruct (CourseEnrollment_get_enrollment u (cd_id c)) eqn:?; cbn);
    repeat (case_match; cbn); naive_solver.
Qed.

(** X21. Giving the course alone is giving the enrollment the lookup
    finds: when [CourseEnrollment.get_enrollment] returns an enrollment of
    the user in the course, the call without the enrollment and the call
    with it return the same. *)
Theorem check_and_get_upgrade_link_and_date_lookup
    (u : user) (c : course_descriptor) (e : course_enrollment) (w : world) :
  CourseEnrollment_get_enrollment u (cd_id c) = Some e →
  enr_course_id e = cd_id c →
  Some (enr_user_id e) = user_id u →
  check_and_get_upgrade_link_and_date CourseEnrollment_get_enrollment
    verified_upgrade_link_is_valid verified_upgrade_deadline_link u None (Some c) w
  = check_and_get_upgrade_link_and_date CourseEnrollment_get_enrollment
      verified_upgrade_link_is_valid verified_upgrade_deadline_link u (Some e) (Some c) w.
Proof.
  intros Hget Hcourse Huser. run_upgrade; [done..|].
  rewrite Hget. by destruct (_ && _).
Qed.

End UpgradeFacts.

(** ** The dashboard metadata *)

Section DashboardFacts.

Context {CourseKey : Type} `{Countable CourseKey}.
Variable course_str : @course_descriptor CourseKey → string.
Variable course_price : @course_enrollment CourseKey → string.

Lemma dashboard_fold_lookup (es : list course_enrollment) (d : gmap string string) k :
  (∀ e, e ∈ es → course_str (enr_course e) ≠ k) →
  fold_left (λ d e, <[course_str (enr_course e) := course_price e]> d) es d !! k = d !! k.
Proof.
  revert d. induction es as [|e es IH]; intros d Hne; [done|].
  simpl. rewrite IH by (intros e' He'; apply Hne; by constructor).
  apply lookup_insert_ne, Hne. constructor.
Qed.

(** X22. In the dashboard dictionary the last enrollment of a course
    wins: the entry under [str(enrollment.course)] is the course price of
    the last enrollment in the list with that key. *)
Theorem get_experiment_dashboard_metadata_context_last
    (before after : list course_enrollment) (e : course_enrollment) :
  (∀ e', e' ∈ after → course_str (enr_course e') ≠ course_str (enr_course e)) →
  get_experiment_dashboard_metadata_context course_str course_price (before ++ e :: after)
    !! course_str (enr_course e)
  = Some (course_price e).
Proof.
  intros Hlast. unfold get_experiment_dashboard_metadata_context.
  rewrite fold_left_app. simpl.
  rewrite dashboard_fold_lookup by done. apply lookup_insert_eq.
Qed.

(** X23. The keys of the dashboard dictionary are exactly the courses of
    the enrollments: a key is present when and only when some enrollment in
    the list has it as [str(enrollment.course)], and the price found under
    it is the course price of such an enrollment. *)
Theorem get_experiment_dashboard_metadata_context_keys
    (enrollments : list course_enrollment) (k price : string) :
  (get_experiment_dashboard_metadata_context course_str course_price enrollments !! k
   = Some price →
   ∃ e, e ∈ enrollments ∧ course_str (enr_course e) = k ∧ course_price e = price)
  ∧ ((∃ e, e ∈ enrollments ∧ course_str (enr_course e) = k) →
     is_Some (get_experiment_dashboard_metadata_context course_str course_price
                enrollments !! k)).
Proof.
  unfold get_experiment_dashboard_metadata_context.
  induction enrollments as [|e es IH] using rev_ind.
  - split; [simpl; by rewrite lookup_empty|]. intros (e & He & _). by apply elem_of_nil in He.
  - rewrite fold_left_app. simpl.
    destruct (decide (course_str (enr_course e) = k)) as [<- | Hne].
    + rewrite lookup_insert_eq. split; [|eauto].
      intros [= <-]. exists e. split; [|done]. apply elem_of_app. right. constructor.
    + rewrite lookup_insert_ne by done. destruct IH as [IH1 IH2]. split.
      * intros Hk. destruct (IH1 Hk) as (e' & He' & Hk' & Hp).
        exists e'. split; [|done]. apply elem_of_app. by left.
      * intros (e' & He' & Hk'). apply IH2. exists e'. split; [|done].
        apply elem_of_app in He' as [He' | He']; [done|].
        apply list_elem_of_singleton in He'. by subst e'.
Qed.

End DashboardFacts.

(** ** The user metadata of an experiment *)

Section UserMetadataFacts.

Context {CourseKey : Type} `{Countable CourseKey}.
Variable CourseKey_from_string : option string → option CourseKey.
Variable Decimal_of_string : string → option decimal.
Variable format_course_price : decimal → string.
Variable CourseEnrollment_objects : list (@course_enrollment CourseKey).
Variable CourseEnrollment_get_enrollment : user → CourseKey → option (@course_enrollment CourseKey).
Variable verified_upgrade_link_is_valid : option (@course_enrollment CourseKey) → bool.
Variable verified_upgrade_deadline_link : user → option (@course_descriptor CourseKey) → string.
Variable PROGRAM_INFO_FLAG_is_enabled : bool.
Variable PROGRAM_PRICE_FLAG_is_enabled : bool.
Variable get_programs : CourseKey → list program.
Variable get_checkout_page_url : list string → option string → string.
Variable has_staff_access_to_preview_mode : user → CourseKey → bool.
Variable forum_role_names : user → CourseKey → list string.
Variable partitions : Type.
Variable get_all_partitions_for_course : @course_descriptor CourseKey → partitions.
Variable get_user_partition_groups : CourseKey → partitions → user → gmap string string.
Variable get_cosmetic_verified_display_price : @course_descriptor CourseKey → string.

#[local] Set Warnings "-clear-no-such-hyp".

#[local] Abbreviation context_of :=
  (get_experiment_user_metadata_context CourseKey_from_string Decimal_of_string
     format_course_price CourseEnrollment_objects CourseEnrollment_get_enrollment
     verified_upgrade_link_is_valid verified_upgrade_deadline_link
     PROGRAM_INFO_FLAG_is_enabled PROGRAM_PRICE_FLAG_is_enabled get_programs
     get_checkout_page_url has_staff_access_to_preview_mode forum_role_names
     partitions get_all_partitions_for_course get_user_partition_groups
     get_cosmetic_verified_display_price).

#[local] Abbreviation program_of course u :=
  (program_block CourseKey_from_string Decimal_of_string format_course_price
     PROGRAM_INFO_FLAG_is_enabled PROGRAM_PRICE_FLAG_is_enabled get_programs
     get_checkout_page_url course
     (filter_user CourseEnrollment_objects u)
     (filter_audit (filter_user CourseEnrollment_objects u))).

#[local] Abbreviation upgrade_of :=
  (check_and_get_upgrade_link_and_date CourseEnrollment_get_enrollment
     verified_upgrade_link_is_valid verified_upgrade_deadline_link).

(** The local variable [enrollment] after the [try] statement. *)
Let enrollment_after (course : @course_descriptor CourseKey) (u : user)
    (leaked : option (@course_enrollment CourseKey)) :=
  match rows_of CourseEnrollment_objects u (cd_id course) with
  | [] => leaked
  | e :: _ => Some e
  end.

(** The call, cut at its three stages. *)
Lemma context_run course u w :
  context_of course u w
  = match program_of course u w with
    | (XRaise e, w1) => (XRaise e, w1)
    | (XReturn (pk, leaked), w1) =>
        match rows_of CourseEnrollment_objects u (cd_id course) with
        | _ :: _ :: _ => (XRaise MultipleObjectsReturned, w1)
        | rows =>
            match upgrade_of u (enrollment_after course u leaked) (Some course) w1 with
            | (XRaise e, w2) => (XRaise e, w2)
            | (XReturn (link, date), w2) =>
                (XReturn
                   (UserMetadata link (get_cosmetic_verified_display_price course)
                      (match rows with
                       | [e] => if enr_is_active e then Some (enr_mode e) else None
                       | _ => None
                       end)
                      (match rows with
                       | [e] => if enr_is_active e then Some (enr_created e) else None
                       | _ => None
                       end)
                      (if self_paced course then "self_paced" else "instructor_paced")
                      date (cd_id course) (cd_start course) (cd_end course)
                      (has_staff_access_to_preview_mode u (cd_id course))
                      (if is_authenticated u then forum_role_names u (cd_id course) else [])
                      (if is_authenticated u
                       then get_user_partition_groups (cd_id course)
                              (get_all_partitions_for_course course) u
                       else ∅)
                      (Some (bool_decide
                               (length (filter_audit (filter_user CourseEnrollment_objects u))
                                ≠ length (filter_user CourseEnrollment_objects u))))
                      pk),
                 w2)
            end
        end
    end.
Proof.
  unfold get_experiment_user_metadata_context.
  unfold mbind at 1, pyx_bind at 1.
  destruct (program_of course u w) as [[[pk leaked]|e] w1]; [|done].
  unfold mbind at 1, pyx_bind at 1, xtry_except, objects_get, enrollment_after.
  fold (rows_of CourseEnrollment_objects u (cd_id course)).
  destruct (rows_of CourseEnrollment_objects u (cd_id course)) as [|e [|e' rows]].
  - unfold xraise, mret, pyx_ret, mbind, pyx_bind.
    cbn -[check_and_get_upgrade_link_and_date].
    rewrite decide_True by done. cbn -[check_and_get_upgrade_link_and_date].
    by destruct (check_and_get_upgrade_link_and_date _ _ _ u leaked (Some course) w1)
      as [[[link date]|e] w2].
  - unfold xraise, mret, pyx_ret, mbind, pyx_bind.
    cbn -[check_and_get_upgrade_link_and_date].
    destruct (enr_is_active e); cbn -[check_and_get_upgrade_link_and_date];
      by destruct (check_and_get_upgrade_link_and_date _ _ _ u (Some e) (Some course) w1)
        as [[[link date]|e'] w2].
  - done.
Qed.

Lemma upgrade_world u enrollment course w :
  (upgrade_of u enrollment course w).2 = w.
Proof.
  unfold check_and_get_upgrade_link_and_date, mbind, pyx_bind, getattr, mret, pyx_ret, xraise.
  destruct enrollment as [e|], course as [c|]; cbn; repeat (case_decide; cbn);
    repeat (case_match; simplify_eq/=); done.
Qed.

Lemma upgrade_mismatch u e c w :
  enr_course_id e ≠ cd_id c →
  upgrade_of u (Some e) (Some c) w = (XRaise (Builtin ValueError), w).
Proof.
  intros Hne.
  unfold check_and_get_upgrade_link_and_date, mbind, pyx_bind, getattr, mret, pyx_ret, xraise.
  cbn. by rewrite decide_True.
Qed.



Lemma rows_of_spec u course_id (e : @course_enrollment CourseKey) :
  e ∈ rows_of CourseEnrollment_objects u course_id
  ↔ e ∈ CourseEnrollment_objects
    ∧ Some (enr_user_id e) = user_id u ∧ enr_course_id e = course_id.
Proof. unfold rows_of. rewrite list_elem_of_filter. tauto. Qed.

Lemma filter_user_spec u (e : @course_enrollment CourseKey) :
  e ∈ filter_user CourseEnrollment_objects u
  ↔ e ∈ CourseEnrollment_objects ∧ Some (enr_user_id e) = user_id u.
Proof. unfold filter_user. rewrite list_elem_of_filter. tauto. Qed.


Lemma lift_value {A} (m : py A) w a w' :
  m w = (Return a, w') → lift m w = (XReturn a, w').
Proof. unfold lift. by intros ->. Qed.

Lemma get_program_price_and_skus_cases courses w :
  (∃ e, get_program_price_and_skus Decimal_of_string format_course_price courses w
        = (Raise e, w)
        ∧ price_exception e)
  ∨ get_program_price_and_skus Decimal_of_string format_course_price courses w
    = (Return (None, None), w)
  ∨ ∃ price skus,
      get_program_price_and_skus Decimal_of_string format_course_price courses w
      = (Return (Some price, Some skus), w).
Proof.
  unfold get_program_price_and_skus, mbind, py_bind.
  destruct (program_price_loop_cases Decimal_of_string courses (Decimal 0 0) [] w)
    as [(e & -> & He) | (total & added & -> & _)]; [left; eauto|].
  cbn iota beta. unfold of_outcome.
  destruct (decimal_le_zero total) as [[]|e] eqn:Hle; [eauto..|].
  left. exists e. split; [done|].
  apply decimal_le_zero_raises in Hle as ->. unfold price_exception. auto.
Qed.

(** The program block when both flags are on and the program lists its
    courses. *)
Lemma program_block_priced course u w program rest courses :
  PROGRAM_INFO_FLAG_is_enabled = true →
  PROGRAM_PRICE_FLAG_is_enabled = true →
  get_programs (cd_id course) = program :: rest →
  program_courses program = Some courses →
  ∃ w2 left complete,
    result_of (get_unenrolled_courses CourseKey_from_string courses
                 (map as_enrollment (non_audit_enrollments CourseEnrollment_objects u))) w
    = Return left
    ∧ program_of course u w
      = match get_program_price_and_skus Decimal_of_string format_course_price left w2 with
        | (Raise e, w3) => (XRaise (Builtin e), w3)
        | (Return (price, None), w3) => (XRaise (Builtin TypeError), w3)
        | (Return (price, Some skus), w3) =>
            (XReturn
               (Some (ProgramKeyFields (program_uuid program) (program_title program)
                        (program_marketing_url program) (Some (length courses)) complete
                        (match left with [] => false | _ => true end) price
                        (Some (get_checkout_page_url skus (program_uuid program)))),
                last (filter_user CourseEnrollment_objects u)),
             w3)
        end.
Proof.
  intros Hinfo Hprice Hprog Hcourses.
  unfold program_block. rewrite Hinfo, Hprice, Hprog, Hcourses.
  unfold mbind at 1, pyx_bind at 1. unfold mbind at 1, pyx_bind at 1.
  unfold is_enrolled_in_all_courses.
  destruct (all_courses_loop_value CourseKey_from_string courses
              (enrollment_ids (map as_enrollment (filter_user CourseEnrollment_objects u))) w)
    as [w1 E1].
  rewrite (lift_value _ _ _ _ E1).
  unfold mbind at 1, pyx_bind at 1.
  fold (non_audit_enrollments CourseEnrollment_objects u).
  rewrite get_unenrolled_courses_run.
  unfold get_unenrolled_courses.
  set (ids := enrollment_ids (map as_enrollment (non_audit_enrollments CourseEnrollment_objects u))).
  destruct (unenrolled_loop_value CourseKey_from_string courses ids [] w1) as [w2 E2].
  rewrite (lift_value _ _ _ _ E2). cbn [app].
  set (left := List.filter (λ c, negb (course_enrolled CourseKey_from_string ids c)) courses).
  exists w2, left. eexists. split; [reflexivity|].
  unfold mbind at 1, pyx_bind at 1, lift.
  destruct (get_program_price_and_skus Decimal_of_string format_course_price left w2)
    as [[[price [skus|]]|e] w3]; reflexivity.
Qed.

Lemma filter_negb_nil {A} (f : A → bool) l :
  (∀ x, x ∈ l → f x = true) → List.filter (λ x, negb (f x)) l = [].
Proof.
  induction l as [|x l IH]; intros Hall; [done|]. simpl.
  rewrite (Hall x) by constructor. simpl. apply IH. intros y Hy. apply Hall. by constructor.
Qed.

(** X24. With both flags enabled and a program that lists its courses, a
    user who holds a non-audit enrollment in every course of the program
    gets no context: nothing is left to purchase, the skus are [None], and
    unpacking them for the checkout URL raises [TypeError]. *)
Theorem get_experiment_user_metadata_context_all_purchased
    (courses : list course) (p : program) (rest : list program)
    (course : course_descriptor) (u : user) (w : world) :
  PROGRAM_INFO_FLAG_is_enabled = true →
  PROGRAM_PRICE_FLAG_is_enabled = true →
  get_programs (cd_id course) = p :: rest →
  program_courses p = Some courses →
  (∀ c, c ∈ courses →
        has_enrolled_run CourseKey_from_string
          (map as_enrollment (non_audit_enrollments CourseEnrollment_objects u)) c) →
  xresult_of (context_of course u) w = XRaise (Builtin TypeError).
Proof.
  intros Hinfo Hprice Hprog Hcourses Hall.
  unfold xresult_of. rewrite context_run.
  destruct (program_block_priced course u w p rest courses Hinfo Hprice Hprog Hcourses)
    as (w2 & left & complete & Hleft & ->).
  rewrite get_unenrolled_courses_run in Hleft. injection Hleft as <-.
  rewrite filter_negb_nil by (intros c Hc; by apply course_enrolled_true, Hall).
  reflexivity.
Qed.

(** X25. With both flags enabled and a program that lists its courses, a
    user who has enrollments but none in the course gets no context either.
    The list comprehension over the enrollments of the user leaves its last
    one in the variable [enrollment] (Python 2), [.get] raises
    [DoesNotExist], and the upgrade link is asked for an enrollment of
    another course: the call raises [ValueError], unless the program price
    has already raised [KeyError], [InvalidOperation], [decimal.Overflow]
    or [TypeError]. *)
Theorem get_experiment_user_metadata_context_enrolled_elsewhere
    (courses : list course) (p : program) (rest : list program)
    (course : course_descriptor) (u : user) (w : world) :
  PROGRAM_INFO_FLAG_is_enabled = true →
  PROGRAM_PRICE_FLAG_is_enabled = true →
  get_programs (cd_id course) = p :: rest →
  program_courses p = Some courses →
  filter_user CourseEnrollment_objects u ≠ [] →
  rows_of CourseEnrollment_objects u (cd_id course) = [] →
  xresult_of (context_of course u) w = XRaise (Builtin ValueError)
  ∨ xresult_of (context_of course u) w = XRaise (Builtin KeyError)
  ∨ xresult_of (context_of course u) w = XRaise (Builtin InvalidOperation)
  ∨ xresult_of (context_of course u) w = XRaise (Builtin Overflow)
  ∨ xresult_of (context_of course u) w = XRaise (Builtin TypeError).
Proof.
  intros Hinfo Hprice Hprog Hcourses Hsome Hnone.
  unfold xresult_of. rewrite context_run.
  destruct (program_block_priced course u w p rest courses Hinfo Hprice Hprog Hcourses)
    as (w2 & left & complete & _ & ->).
  destruct (get_program_price_and_skus_cases left w2)
    as [(e & -> & [-> | [-> | ->]]) | [-> | (price & skus & ->)]]; [auto 6..|].
  unfold enrollment_after. rewrite Hnone.
  apply last_is_Some in Hsome as [e He]. rewrite He.
  assert (Hne : enr_course_id e ≠ cd_id course).
  { intros Heq. apply last_Some_elem_of, filter_user_spec in He as [Hin Hu].
    assert (Hrow : e ∈ rows_of CourseEnrollment_objects u (cd_id course))
      by by apply rows_of_spec.
    rewrite Hnone in Hrow. by apply elem_of_nil in Hrow. }
  rewrite (upgrade_mismatch u e course w2 Hne). by left.
Qed.

Lemma upgrade_anonymous u enrollment course w link date w' :
  is_authenticated u = false →
  upgrade_of u enrollment course w = (XReturn (link, date), w') →
  link = None ∧ date = None.
Proof.
  intros Hanon.
  unfold check_and_get_upgrade_link_and_date, mbind, pyx_bind, getattr, mret, pyx_ret, xraise.
  rewrite Hanon.
  destruct enrollment as [e|], course as [c|]; cbn; repeat (case_decide; cbn);
    intros; by simplify_eq.
Qed.


(** X27. A context that is returned reports the mode and the creation
    time of the active enrollment of the user in the course, and [None] for
    both when the user has no enrollment in it or an inactive one. *)
Theorem get_experiment_user_metadata_context_enrollment
    (course : course_descriptor) (u : user) (w : world)
    (ctx : user_metadata) (mode : string) (time : Z) :
  xresult_of (context_of course u) w = XReturn ctx →
  (enrollment_mode ctx = Some mode ∧ enrollment_time ctx = Some time
   ↔ ∃ e, e ∈ CourseEnrollment_objects
          ∧ Some (enr_user_id e) = user_id u ∧ enr_course_id e = cd_id course
          ∧ enr_is_active e = true ∧ enr_mode e = mode ∧ enr_created e = time)
  ∧ (enrollment_mode ctx = None ↔ enrollment_time ctx = None).
Proof.
  unfold xresult_of. rewrite context_run.
  destruct (program_block _ _ _ _ _ _ _ _ _ _ w) as [[[pk leaked]|e0] w1]; [|done].
  destruct (rows_of CourseEnrollment_objects u (cd_id course)) as [|e [|e' rows]] eqn:Hrows;
    [| |done].
  - destruct (check_and_get_upgrade_link_and_date _ _ _ _ _ _ w1) as [[[link date]|e0] w2];
      [|done].
    cbn. intros [= <-]. cbn. split; [|done]. split; [by intros [[=] _]|].
    intros (e & Hin & Hu & Hc & _).
    assert (He : e ∈ rows_of CourseEnrollment_objects u (cd_id course))
      by by apply rows_of_spec.
    rewrite Hrows in He. by apply elem_of_nil in He.
  - destruct (check_and_get_upgrade_link_and_date _ _ _ _ _ _ w1) as [[[link date]|e0] w2];
      [|done].
    cbn. intros [= <-]. cbn.
    assert (He : e ∈ rows_of CourseEnrollment_objects u (cd_id course))
      by (rewrite Hrows; constructor).
    apply rows_of_spec in He as (Hin & Hu & Hc).
    split; [|by destruct (enr_is_active e)]. split.
    + destruct (enr_is_active e) eqn:Hact; [|by intros [[=] _]].
      intros [[= <-] [= <-]]. exists e. repeat split; done.
    + intros (e' & Hin' & Hu' & Hc' & Hact & <- & <-).
      assert (He' : e' ∈ rows_of CourseEnrollment_objects u (cd_id course))
        by by apply rows_of_spec.
      rewrite Hrows in He'. apply list_elem_of_singleton in He' as ->.
      by rewrite Hact.
Qed.

Lemma length_filter_ne {A} (P : A → Prop) `{∀ x, Decision (P x)} (l : list A) :
  length (filter P l) ≠ length l ↔ ∃ x, x ∈ l ∧ ¬ P x.
Proof.
  split.
  - induction l as [|x l IH]; [done|]. rewrite filter_cons.
    destruct (decide (P x)) as [Hx|Hx].
    + simpl. intros Hne. destruct IH as (y & Hy & HPy); [lia|].
      exists y. split; [by constructor | done].
    + intros _. exists x. split; [constructor | done].
  - intros (x & Hx & HP). pose proof (length_filter_lt P l x Hx HP). lia.
Qed.

(** X28. A context that is returned says under
    ['has_non_audit_enrollments'] whether some enrollment of the user, in
    any course, has a mode other than audit. *)
Theorem get_experiment_user_metadata_context_non_audit
    (course : course_descriptor) (u : user) (w : world) (ctx : user_metadata) :
  xresult_of (context_of course u) w = XReturn ctx →
  ∃ b : bool,
    has_non_audit_enrollments ctx = Some b
    ∧ (b = true
       ↔ ∃ e, e ∈ CourseEnrollment_objects
              ∧ Some (enr_user_id e) = user_id u ∧ enr_mode e ≠ "audit"%string).
Proof.
  unfold xresult_of. rewrite context_run.
  destruct (program_block _ _ _ _ _ _ _ _ _ _ w) as [[[pk leaked]|e0] w1]; [|done].
  assert (Hb : bool_decide
                 (length (filter_audit (filter_user CourseEnrollment_objects u))
                  ≠ length (filter_user CourseEnrollment_objects u)) = true
               ↔ ∃ e, e ∈ CourseEnrollment_objects
                      ∧ Some (enr_user_id e) = user_id u ∧ enr_mode e ≠ "audit"%string).
  { rewrite bool_decide_eq_true. unfold filter_audit. rewrite length_filter_ne.
    split; intros (e & He & Hm); exists e.
    - apply filter_user_spec in He. tauto.
    - split; [apply filter_user_spec|]; tauto. }
  destruct (rows_of CourseEnrollment_objects u (cd_id course)) as [|e [|e' rows]];
    [| |done];
    (destruct (check_and_get_upgrade_link_and_date _ _ _ _ _ _ w1) as [[[link date]|e0] w2];
     [|done]);
    cbn; intros [= <-]; cbn; eexists; (split; [reflexivity | exact Hb]).
Qed.

(** X29. For a user who is not authenticated a context that is returned
    has no upgrade link and no upgrade deadline, no forum roles and no
    partition groups. *)
Theorem get_experiment_user_metadata_context_anonymous
    (course : course_descriptor) (u : user) (w : world) (ctx : user_metadata) :
  is_authenticated u = false →
  xresult_of (context_of course u) w = XReturn ctx →
  upgrade_link ctx = None ∧ upgrade_deadline ctx = None
  ∧ forum_roles ctx = [] ∧ partition_groups ctx = ∅.
Proof.
  intros Hanon. unfold xresult_of. rewrite context_run.
  destruct (program_block _ _ _ _ _ _ _ _ _ _ w) as [[[pk leaked]|e0] w1]; [|done].
  destruct (rows_of CourseEnrollment_objects u (cd_id course)) as [|e [|e' rows]];
    [| |done];
    (destruct (check_and_get_upgrade_link_and_date _ _ _ _ _ _ w1)
       as [[[link date]|e0] w2] eqn:Hup; [|done]);
    destruct (upgrade_anonymous _ _ _ _ _ _ _ Hanon Hup) as [-> ->];
    cbn; intros [= <-]; cbn; by rewrite Hanon.
Qed.

End UserMetadataFacts.

(** ** The further properties on the sample data *)

Lemma get_unenrolled_courses_antitone_witness :
  [] ⊆ Sample.enrolled
  ∧ ∃ before after,
      result_of (get_unenrolled_courses Sample.CourseKey_from_string
                   [Sample.demo_course; Sample.entitled_course] []) world0
      = Return before
      ∧ result_of (get_unenrolled_courses Sample.CourseKey_from_string
                     [Sample.demo_course; Sample.entitled_course] Sample.enrolled) world0
        = Return after
      ∧ after `sublist_of` before.
Proof.
  assert (Hsub : [] ⊆ Sample.enrolled) by (intros e He; by apply elem_of_nil in He).
  split; [exact Hsub|].
  by apply get_unenrolled_courses_antitone.
Defined.

Lemma enrollment_order_irrelevant_witness :
  (∀ e, e ∈ Sample.enrolled ++ Sample.enrolled ↔ e ∈ Sample.enrolled)
  ∧ result_of (get_unenrolled_courses Sample.CourseKey_from_string
                 [Sample.demo_course; Sample.entitled_course]
                 (Sample.enrolled ++ Sample.enrolled)) world0
    = result_of (get_unenrolled_courses Sample.CourseKey_from_string
                   [Sample.demo_course; Sample.entitled_course] Sample.enrolled) world0
  ∧ result_of (is_enrolled_in_all_courses Sample.CourseKey_from_string
                 [Sample.demo_course; Sample.entitled_course]
                 (Sample.enrolled ++ Sample.enrolled)) world0
    = result_of (is_enrolled_in_all_courses Sample.CourseKey_from_string
                   [Sample.demo_course; Sample.entitled_course] Sample.enrolled) world0.
Proof.
  assert (Hsame : ∀ e, e ∈ Sample.enrolled ++ Sample.enrolled ↔ e ∈ Sample.enrolled)
    by (intros e; rewrite elem_of_app; tauto).
  split; [exact Hsame|].
  by apply enrollment_order_irrelevant.
Defined.

Lemma enrollment_queries_read_only_witness :
  keys_valid Sample.CourseKey_from_string [SampleCases.clean_course]
  ∧ (get_unenrolled_courses Sample.CourseKey_from_string
       [SampleCases.clean_course] Sample.enrolled world0).2 = world0
  ∧ (is_enrolled_in_all_courses Sample.CourseKey_from_string
       [SampleCases.clean_course] Sample.enrolled world0).2 = world0.
Proof.
  assert (Hvalid : keys_valid Sample.CourseKey_from_string [SampleCases.clean_course]).
  { intros c cr Hc Hcr. apply list_elem_of_singleton in Hc as ->.
    apply list_elem_of_singleton in Hcr as ->. by eexists. }
  split; [exact Hvalid|].
  by apply enrollment_queries_read_only.
Defined.

Lemma is_enrolled_in_all_courses_stops_witness :
  ¬ has_enrolled_run Sample.CourseKey_from_string Sample.enrolled Sample.entitled_course
  ∧ is_enrolled_in_all_courses Sample.CourseKey_from_string
      ([Sample.demo_course] ++ Sample.entitled_course :: [Sample.demo_course])
      Sample.enrolled world0
    = is_enrolled_in_all_courses Sample.CourseKey_from_string
        ([Sample.demo_course] ++ [Sample.entitled_course]) Sample.enrolled world0
  ∧ result_of (is_enrolled_in_all_courses Sample.CourseKey_from_string
                 ([Sample.demo_course] ++ Sample.entitled_course :: [Sample.demo_course])
                 Sample.enrolled) world0
    = Return false.
Proof.
  assert (Hno : ¬ has_enrolled_run Sample.CourseKey_from_string Sample.enrolled
                    Sample.entitled_course).
  { intros (cr & k & e & Hcr & _). by apply elem_of_nil in Hcr. }
  split; [exact Hno|].
  by apply is_enrolled_in_all_courses_stops.
Defined.

Lemma get_course_entitlement_price_and_sku_entitlement_first_witness :
  Forall (λ e', entitlement_qualifies (clock world0) e' = Return false)
    [SampleCases.expired_entitlement]
  ∧ entitlement_qualifies (clock world0) SampleCases.valid_entitlement = Return true
  ∧ get_course_entitlement_price_and_sku Sample.Decimal_of_string
      (Course (Some ([SampleCases.expired_entitlement]
                       ++ SampleCases.valid_entitlement :: []))
              (Some [Sample.demo_run])) world0
    = (Return (PriceStr "49.00", Some "A5B6DBE"%string), world0).
Proof.
  assert (Hbefore : Forall (λ e', entitlement_qualifies (clock world0) e' = Return false)
                      [SampleCases.expired_entitlement])
    by (repeat constructor).
  split; [exact Hbefore|]. split; [reflexivity|].
  destruct (proj1 (get_course_entitlement_price_and_sku_entitlement_first
                     Sample.Decimal_of_string [SampleCases.expired_entitlement] []
                     SampleCases.valid_entitlement (Some [Sample.demo_run]) world0 Hbefore)
              eq_refl)
    as (p & sku & Hp & Hk & E).
  injection Hp as <-. injection Hk as <-. exact E.
Defined.




Lemma get_program_price_and_skus_skips_witness :
  result_of (get_course_entitlement_price_and_sku Sample.Decimal_of_string
               SampleCases.unpriced_course) world0
  = Return (PriceNone, None)
  ∧ get_program_price_and_skus Sample.Decimal_of_string Sample.format_course_price
      ([Sample.demo_course] ++ SampleCases.unpriced_course :: [Sample.entitled_course])
      world0
    = get_program_price_and_skus Sample.Decimal_of_string Sample.format_course_price
        ([Sample.demo_course] ++ [Sample.entitled_course]) world0.
Proof.
  split; [reflexivity|].
  by apply get_program_price_and_skus_skips.
Defined.

Lemma check_and_get_upgrade_link_and_date_anonymous_witness :
  is_authenticated SampleSite.visitor = false
  ∧ (xresult_of (SampleSite.upgrade [SampleSite.audit_row] SampleSite.visitor None
                   (Some SampleSite.demo_descriptor)) world0
     = XRaise (Builtin ValueError)
     ∨ xresult_of (SampleSite.upgrade [SampleSite.audit_row] SampleSite.visitor None
                     (Some SampleSite.demo_descriptor)) world0
       = XReturn (None, None)).
Proof.
  split; [reflexivity|]. unfold SampleSite.upgrade.
  by apply check_and_get_upgrade_link_and_date_anonymous.
Defined.

Lemma check_and_get_upgrade_link_and_date_link_witness :
  xresult_of (SampleSite.upgrade [SampleSite.audit_row] SampleSite.learner None
                (Some SampleSite.demo_descriptor)) world0
  = XReturn (Some "/verify_student/upgrade/course-v1:edX+DemoX+Demo_Course/"%string,
             Some 1560000000)
  ∧ is_authenticated SampleSite.learner = true.
Proof.
  assert (Hrun : xresult_of (SampleSite.upgrade [SampleSite.audit_row] SampleSite.learner
                               None (Some SampleSite.demo_descriptor)) world0
                 = XReturn (Some "/verify_student/upgrade/course-v1:edX+DemoX+Demo_Course/"%string,
                            Some 1560000000))
    by (vm_compute; reflexivity).
  split; [exact Hrun|].
  unfold SampleSite.upgrade in Hrun.
  exact (proj1 (check_and_get_upgrade_link_and_date_link _ _ _ _ _ _ _ _ _ Hrun)).
Defined.

Lemma check_and_get_upgrade_link_and_date_lookup_witness :
  SampleSite.get_enrollment [SampleSite.audit_row] SampleSite.learner
    (cd_id SampleSite.demo_descriptor) = Some SampleSite.audit_row
  ∧ enr_course_id SampleSite.audit_row = cd_id SampleSite.demo_descriptor
  ∧ Some (enr_user_id SampleSite.audit_row) = user_id SampleSite.learner
  ∧ SampleSite.upgrade [SampleSite.audit_row] SampleSite.learner None
      (Some SampleSite.demo_descriptor) world0
    = SampleSite.upgrade [SampleSite.audit_row] SampleSite.learner
        (Some SampleSite.audit_row) (Some SampleSite.demo_descriptor) world0.
Proof.
  split; [reflexivity|]. split; [reflexivity|]. split; [reflexivity|].
  unfold SampleSite.upgrade.
  by apply check_and_get_upgrade_link_and_date_lookup.
Defined.

Lemma get_experiment_dashboard_metadata_context_last_witness :
  (∀ e', e' ∈ [SampleSite.other_row] →
         cd_id (enr_course e') ≠ cd_id (enr_course SampleSite.verified_row))
  ∧ get_experiment_dashboard_metadata_context cd_id enr_mode
      ([SampleSite.audit_row] ++ SampleSite.verified_row :: [SampleSite.other_row])
      !! cd_id (enr_course SampleSite.verified_row)
    = Some (enr_mode SampleSite.verified_row).
Proof.
  assert (Hlast : ∀ e', e' ∈ [SampleSite.other_row] →
                        cd_id (enr_course e') ≠ cd_id (enr_course SampleSite.verified_row)).
  { intros e' He'. apply list_elem_of_singleton in He' as ->. discriminate. }
  split; [exact Hlast|].
  by apply get_experiment_dashboard_metadata_context_last.
Defined.

Lemma sample_all_purchased :
  ∀ c, c ∈ [Sample.demo_course] →
       has_enrolled_run Sample.CourseKey_from_string
         (map as_enrollment
            (non_audit_enrollments [SampleSite.verified_row; SampleSite.stranger_row]
               SampleSite.learner)) c.
Proof.
  intros c Hc. apply list_elem_of_singleton in Hc as ->.
  exists Sample.demo_run, SampleSite.demo_key, (Enrollment SampleSite.demo_key).
  split; [right; left|]. split; [reflexivity|]. split; [left | reflexivity].
Defined.

Lemma get_experiment_user_metadata_context_all_purchased_witness :
  true = true ∧ true = true
  ∧ SampleSite.programs (cd_id SampleSite.demo_descriptor)
    = Program (Some "3c2e4a1f"%string) (Some "Demo program"%string) None
        (Some [Sample.demo_course]) :: []
  ∧ xresult_of (SampleSite.context [SampleSite.verified_row; SampleSite.stranger_row]
                  true true SampleSite.demo_descriptor SampleSite.learner) world0
    = XRaise (Builtin TypeError).
Proof.
  split; [reflexivity|]. split; [reflexivity|]. split; [reflexivity|].
  unfold SampleSite.context.
  eapply get_experiment_user_metadata_context_all_purchased;
    [reflexivity | reflexivity | reflexivity | reflexivity | exact sample_all_purchased].
Defined.

Lemma get_experiment_user_metadata_context_enrolled_elsewhere_witness :
  filter_user [SampleSite.other_row; SampleSite.stranger_row] SampleSite.learner ≠ []
  ∧ rows_of [SampleSite.other_row; SampleSite.stranger_row] SampleSite.learner
      (cd_id SampleSite.demo_descriptor) = []
  ∧ (xresult_of (SampleSite.context [SampleSite.other_row; SampleSite.stranger_row]
                   true true SampleSite.demo_descriptor SampleSite.learner) world0
     = XRaise (Builtin ValueError)
     ∨ xresult_of (SampleSite.context [SampleSite.other_row; SampleSite.stranger_row]
                     true true SampleSite.demo_descriptor SampleSite.learner) world0
       = XRaise (Builtin KeyError)
     ∨ xresult_of (SampleSite.context [SampleSite.other_row; SampleSite.stranger_row]
                     true true SampleSite.demo_descriptor SampleSite.learner) world0
       = XRaise (Builtin InvalidOperation)
     ∨ xresult_of (SampleSite.context [SampleSite.other_row; SampleSite.stranger_row]
                     true true SampleSite.demo_descriptor SampleSite.learner) world0
       = XRaise (Builtin Overflow)
     ∨ xresult_of (SampleSite.context [SampleSite.other_row; SampleSite.stranger_row]
                     true true SampleSite.demo_descriptor SampleSite.learner) world0
       = XRaise (Builtin TypeError)).
Proof.
  split; [discriminate|]. split; [reflexivity|].
  unfold SampleSite.context.
  eapply get_experiment_user_metadata_context_enrolled_elsewhere;
    [reflexivity | reflexivity | reflexivity | reflexivity | discriminate | reflexivity].
Defined.


Lemma sample_audit_context :
  xresult_of (SampleSite.context [SampleSite.audit_row; SampleSite.stranger_row]
                false false SampleSite.demo_descriptor SampleSite.learner) world0
  = XReturn SampleCases.audit_context.
Proof. vm_compute. reflexivity. Defined.

Lemma sample_visitor_context :
  xresult_of (SampleSite.context [SampleSite.audit_row; SampleSite.stranger_row]
                false false SampleSite.demo_descriptor SampleSite.visitor) world0
  = XReturn SampleCases.visitor_context.
Proof. vm_compute. reflexivity. Defined.

Lemma get_experiment_user_metadata_context_enrollment_witness :
  xresult_of (SampleSite.context [SampleSite.audit_row; SampleSite.stranger_row]
                false false SampleSite.demo_descriptor SampleSite.learner) world0
  = XReturn SampleCases.audit_context
  ∧ (enrollment_mode SampleCases.audit_context = Some "audit"%string
     ∧ enrollment_time SampleCases.audit_context = Some 1550000000
     ↔ ∃ e, e ∈ [SampleSite.audit_row; SampleSite.stranger_row]
            ∧ Some (enr_user_id e) = user_id SampleSite.learner
            ∧ enr_course_id e = cd_id SampleSite.demo_descriptor
            ∧ enr_is_active e = true ∧ enr_mode e = "audit"%string
            ∧ enr_created e = 1550000000).
Proof.
  split; [exact sample_audit_context|].
  pose proof sample_audit_context as Hrun. unfold SampleSite.context in Hrun.
  exact (proj1 (get_experiment_user_metadata_context_enrollment
                  _ _ _ _ _ _ _ _ _ _ _ _ _ _ _ _ _ _ _ _ _ "audit"%string 1550000000 Hrun)).
Defined.

Lemma get_experiment_user_metadata_context_non_audit_witness :
  xresult_of (SampleSite.context [SampleSite.audit_row; SampleSite.stranger_row]
                false false SampleSite.demo_descriptor SampleSite.learner) world0
  = XReturn SampleCases.audit_context
  ∧ ∃ b : bool,
      has_non_audit_enrollments SampleCases.audit_context = Some b
      ∧ (b = true
         ↔ ∃ e, e ∈ [SampleSite.audit_row; SampleSite.stranger_row]
                ∧ Some (enr_user_id e) = user_id SampleSite.learner
                ∧ enr_mode e ≠ "audit"%string).
Proof.
  split; [exact sample_audit_context|].
  pose proof sample_audit_context as Hrun. unfold SampleSite.context in Hrun.
  exact (get_experiment_user_metadata_context_non_audit
           _ _ _ _ _ _ _ _ _ _ _ _ _ _ _ _ _ _ _ _ _ Hrun).
Defined.

Lemma get_experiment_user_metadata_context_anonymous_witness :
  is_authenticated SampleSite.visitor = false
  ∧ xresult_of (SampleSite.context [SampleSite.audit_row; SampleSite.stranger_row]
                  false false SampleSite.demo_descriptor SampleSite.visitor) world0
    = XReturn SampleCases.visitor_context
  ∧ upgrade_link SampleCases.visitor_context = None
  ∧ upgrade_deadline SampleCases.visitor_context = None
  ∧ forum_roles SampleCases.visitor_context = []
  ∧ partition_groups SampleCases.visitor_context = ∅.
Proof.
  split; [reflexivity|]. split; [exact sample_visitor_context|].
  pose proof sample_visitor_context as Hrun. unfold SampleSite.context in Hrun.
  exact (get_experiment_user_metadata_context_anonymous
           _ _ _ _ _ _ _ _ _ _ _ _ _ _ _ _ _ _ _ _ _
           (eq_refl : is_authenticated SampleSite.visitor = false) Hrun).
Defined.
